(** * The multi-seed launcher of DSO ([dso/run.py])

    A shallow embedding of [train_dso] and [main] and the properties of the
    replicate scheduler: seed plan, worker-count resolution, benchmark
    routing, result aggregation into [summary.csv] and failure propagation.

    Python values are modelled by [value], dictionaries by [gmap],
    exceptions by [exn]; the coordinator runs in a state-and-exception monad
    over the file system and the log of observable events.  Everything the
    launcher imports ([load_config], [DeepSymbolicOptimizer], [gym], the
    clock, [os.path], [LogEval], the completion order of the pool, the disk
    under [to_csv]) is a field of the record [World]. *)

From Stdlib Require Import ZArith List Lia Floats.SpecFloat.
From stdpp Require Import base option list gmap strings fin_maps.
From Stdlib Require Import Permutation.

Local Open Scope string_scope.
Local Open Scope list_scope.
Local Open Scope Z_scope.

(** ** Python values *)

(** The values a JSON configuration or a result record can hold. *)
#[local] Set Warnings "-register-all".
Inductive value : Type :=
| VNone
| VBool (b : bool)
| VInt (z : Z)
| VFloat (f : spec_float)
| VStr (s : string)
| VList (items : list value)
| VDict (items : list (string * value)).

(** The exceptions the launcher can meet. [External] stands for whatever
    subclass of [Exception] an imported routine raises; [SystemExit] for an
    exit that is no subclass of [Exception]: raised in the calling process
    it propagates like any exception, raised in a pool worker it ends the
    worker, which sends nothing back. *)
Inductive exn : Type :=
| ValueError (task_type : value)   (* "--b is not supported for task {}." *)
| KeyError (key : string)
| TypeError
| OverflowError
| UnboundLocalError (name : string)
| SystemExit
| External (tag : string).

(** How a call ends: it returns, it raises, or it does not come back
    ([Hang]: a training that never finishes, a coordinator waiting for a
    result the pool will not deliver). *)
Inductive outcome (A : Type) : Type :=
| Ok (a : A)
| Raise (e : exn)
| Hang.
Arguments Ok {A} a.
Arguments Raise {A} e.
Arguments Hang {A}.

Definition is_ok {A} (o : outcome A) : bool :=
  match o with Ok _ => true | Raise _ | Hang => false end.

#[global] Instance outcome_ret : MRet outcome := fun _ a => Ok a.
#[global] Instance outcome_bind : MBind outcome := fun _ _ f o =>
  match o with Ok a => f a | Raise e => Raise e | Hang => Hang end.

Module Py.

(** Binary64, the format of a Python float. *)
Definition prec : Z := 53.
Definition emax : Z := 1024.

Definition float_of_int (z : Z) : outcome spec_float :=
  match binary_normalize prec emax z 0 false with
  | S754_infinity _ => Raise OverflowError
  | f => Ok f
  end.

Definition one : spec_float := binary_normalize prec emax 1 0 false.

(** [bool(v)] *)
Definition truthy (v : value) : bool :=
  match v with
  | VNone => false
  | VBool b => b
  | VInt z => negb (z =? 0)
  | VFloat (S754_zero _) => false
  | VFloat _ => true
  | VStr s => negb (String.eqb s "")
  | VList l => match l with [] => false | _ => true end
  | VDict d => match d with [] => false | _ => true end
  end.

(** [v == s] for a string literal [s] *)
Definition eq_str (v : value) (s : string) : bool :=
  match v with VStr s' => String.eqb s' s | _ => false end.

(** [v != 1] *)
Definition ne_one (v : value) : bool :=
  match v with
  | VInt z => negb (z =? 1)
  | VBool b => negb b
  | VFloat f => negb (SFeqb f one)
  | _ => true
  end.

(** [v > 1]; ordering against an int is a [TypeError] outside numbers. *)
Definition gt_one (v : value) : outcome bool :=
  match v with
  | VInt z => Ok (1 <? z)
  | VBool _ => Ok false
  | VFloat f => Ok (SFltb one f)
  | _ => Raise TypeError
  end.

(** [v > 0] *)
Definition gt_zero (v : value) : outcome bool :=
  match v with
  | VInt z => Ok (0 <? z)
  | VBool b => Ok b
  | VFloat f => Ok (SFltb (S754_zero false) f)
  | _ => Raise TypeError
  end.

(** [v += i] for an int [i] *)
Definition iadd (v : value) (i : Z) : outcome value :=
  match v with
  | VInt z => Ok (VInt (z + i))
  | VBool b => Ok (VInt (Z.b2z b + i))
  | VFloat f => g ← float_of_int i; Ok (VFloat (SFadd prec emax f g))
  | _ => Raise TypeError
  end.

(** [d[k]] *)
Definition getitem {V} (d : gmap string V) (k : string) : outcome V :=
  match d !! k with Some v => Ok v | None => Raise (KeyError k) end.

End Py.

(** ** Configurations and result records *)

(** A configuration is a dictionary of sections ("experiment", "task",
    "training", "postprocess", ...), each a dictionary of settings. *)
Abbreviation Config := (gmap string (gmap string value)).
Abbreviation Result := (gmap string value).

(** [config[sec][key]] *)
Definition get2 (config : Config) (sec key : string) : outcome value :=
  d ← Py.getitem config sec; Py.getitem d key.

(** [config[sec][key] = v] *)
Definition set2 (config : Config) (sec key : string) (v : value)
  : outcome Config :=
  d ← Py.getitem config sec; Ok (<[sec := <[key := v]> d]> config).

(** ** The world outside the launcher *)

(** One line of a CSV file written by [DataFrame.to_csv]. *)
Inductive line : Type :=
| Header (cols : gset string)
| Data (row : Result).

(** What the launcher imports. [completion] holds the scheduling choices of
    the worker pool: the k-th entry picks, among the replicates still
    pending, the one that completes next. [write_fault] is the disk under
    [to_csv]: given the path and what the file holds, [None] lets the write
    through and [Some (e, kept)] makes it raise [e], leaving [kept] in the
    file. *)
Record World : Type := {
  load_config : option string -> outcome (Config);
  argv : list string;
  now : string;
  cpu_count : positive;
  gym_make : value -> outcome unit;
  model_train : Config -> outcome Result;
  elapsed : Config -> spec_float;
  save_path : Config -> string;
  path_join : string -> string -> string;
  path_dirname : string -> string;
  completion : list nat;
  log_eval : string -> outcome unit;
  analyze_log : value -> bool -> value -> value -> outcome unit;
  write_fault : string -> option (list line) -> option (exn * option (list line))
}.

(** ** Observable events and the coordinator's monad *)

Inductive event : Type :=
| WarnSeed                          (* "WARNING: Overwriting config seed ..." *)
| WarnCores (runs : Z)              (* "Setting 'n_cores_task' to {} ..." *)
| WarnVerbose                       (* "Setting 'verbose' to False ..." *)
| WarnBatch                         (* "Setting 'n_cores_batch' to 1 ..." *)
| Running (runs : Z)                (* "Running DSO for {} seeds" *)
| Pool (n : Z)                      (* multiprocessing.Pool(n) *)
| Call (config : Config)   (* train_dso(config) *)
| Append (path : string) (header : bool) (row : Result)
| Completed (i runs : Z) (t : value)  (* "Completed {} of {} in {:.0f} s" *)
| Analyze (dir : string).

(** The state the coordinator works on: the summary files, which only the
    coordinator writes, and the log of what it did. What training and the
    analysis write next to the summary (logs, [config.json], plots) is not
    part of it. *)
Record Sys : Type := {
  files : gmap string (list line);
  log : list event
}.

Definition M (A : Type) : Type := Sys -> outcome A * Sys.

#[global] Instance M_ret : MRet M := fun _ a s => (Ok a, s).
#[global] Instance M_bind : MBind M := fun _ _ f m s =>
  match m s with
  | (Ok a, s') => f a s'
  | (Raise e, s') => (Raise e, s')
  | (Hang, s') => (Hang, s')
  end.

Definition lift {A} (o : outcome A) : M A := fun s => (o, s).

Definition emit (e : event) : M unit := fun s =>
  (Ok tt, {| files := files s; log := log s ++ [e] |}).

(** [os.path.exists(path)] *)
Definition path_exists (path : string) : M bool := fun s =>
  (Ok (bool_decide (is_Some (files s !! path))), s).

(** What [to_csv(path, header=header, mode='a', index=False)] leaves in the
    file for a one-row frame. *)
Definition appended (old : option (list line)) (header : bool)
  (row : Result) : list line :=
  default [] old ++ (if header then [Header (dom row)] else []) ++ [Data row].

Definition to_csv (w : World) (row : Result) (path : string) (header : bool)
  : M unit := fun s =>
  match write_fault w path (files s !! path) with
  | Some (e, kept) =>
      (Raise e, {| files := partial_alter (λ _, kept) path (files s);
                   log := log s |})
  | None =>
      (Ok tt, {| files := <[path := appended (files s !! path) header row]> (files s);
                 log := log s ++ [Append path header row] |})
  end.

(** [pd.DataFrame(result, index=[0])]: a scalar is broadcast to the one
    row; a list must have the length of the index, or the constructor
    raises [ValueError], an exception of the imported library. The frame
    is kept as the record it was made from: [Data row] is the line
    [to_csv] writes for it, a one-element list giving its element. *)
Definition frameable (v : value) : bool :=
  match v with VList l => (length l =? 1)%nat | _ => true end.

Definition frame (result : Result) : outcome Result :=
  if forallb (λ kv, frameable kv.2) (map_to_list result)
  then Ok result
  else Raise (External "ValueError: Length of values does not match length of index").

(** ** [train_dso] *)

(** [result["t"] = time.time() - start; result.pop("program")]: the pop has
    no default, a record without the key raises [KeyError]. *)
Definition strip (result : Result) (t : spec_float) : outcome Result :=
  let result := <["t" := VFloat t]> result in
  _ ← Py.getitem result "program";
  Ok (delete "program" result).

(** Lines 23-26: a control task with a batch pool makes its environment
    before the pool exists. *)
Definition precondition (w : World) (config : Config) : outcome unit :=
  task_type ← get2 config "task" "task_type";
  nested ← (if Py.eq_str task_type "control"
            then n ← get2 config "training" "n_cores_batch"; Py.gt_one n
            else Ok false);
  if nested : bool
  then env ← get2 config "task" "env"; gym_make w env
  else Ok tt.

Definition train_dso (w : World) (config : Config) : outcome (Result * string) :=
  precondition w config;;
  result ← model_train w config;
  result ← strip result (elapsed w config);
  let summary_path := path_join w (save_path w config) "summary.csv" in
  Ok (result, summary_path).

(** ** [main], stage by stage *)

(** Lines 55-64: overwrite the named benchmark. *)
Definition overwrite_benchmark (config : Config) (benchmark : option string)
  : outcome Config :=
  task_type ← get2 config "task" "task_type";
  match benchmark with
  | None => Ok config
  | Some b =>
      if Py.eq_str task_type "regression" then set2 config "task" "dataset" (VStr b)
      else if Py.eq_str task_type "control" then set2 config "task" "env" (VStr b)
      else Raise (ValueError task_type)
  end.

(** Lines 67-70: overwrite the config seed, if specified. *)
Definition overwrite_seed (config : Config) (seed : option Z) : M Config :=
  match seed with
  | None => mret config
  | Some s =>
      old ← lift (get2 config "experiment" "seed");
      (match old with VNone => mret tt | _ => emit WarnSeed end);;
      lift (set2 config "experiment" "seed" (VInt s))
  end.

(** Lines 73-78: starting seed, run command and the shared timestamp. *)
Definition save_start (w : World) (config : Config) : outcome Config :=
  s ← get2 config "experiment" "seed";
  config ← set2 config "experiment" "starting_seed" s;
  config ← set2 config "experiment" "cmd" (VStr (String.concat " " (argv w)));
  set2 config "experiment" "timestamp" (VStr (now w)).

(** Lines 81-82. *)
Definition all_cores (w : World) (n_cores_task : Z) : Z :=
  if n_cores_task =? -1 then Z.pos (cpu_count w) else n_cores_task.

(** Lines 83-85. *)
Definition clamp_cores (runs n_cores_task : Z) : M Z :=
  if runs <? n_cores_task then emit (WarnCores runs);; mret runs
  else mret n_cores_task.

(** Lines 81-85: the worker count the rest of [main] works with. *)
Definition resolve_cores (w : World) (runs n_cores_task : Z) : M Z :=
  clamp_cores runs (all_cores w n_cores_task).

(** Lines 86-88. *)
Definition fix_verbose (config : Config) (n_cores_task : Z) : M Config :=
  verbose ← lift (get2 config "training" "verbose");
  if Py.truthy verbose && (1 <? n_cores_task)
  then emit WarnVerbose;; lift (set2 config "training" "verbose" (VBool false))
  else mret config.

(** Lines 89-91. *)
Definition fix_batch (config : Config) (n_cores_task : Z) : M Config :=
  batch ← lift (get2 config "training" "n_cores_batch");
  if Py.ne_one batch && (1 <? n_cores_task)
  then emit WarnBatch;; lift (set2 config "training" "n_cores_batch" (VInt 1))
  else mret config.

(** Line 96: [config["experiment"]["seed"] += i]. *)
Definition bump_seed (i : nat) (config : Config) : outcome Config :=
  s ← get2 config "experiment" "seed";
  s' ← Py.iadd s (Z.of_nat i);
  set2 config "experiment" "seed" s'.

(** Lines 95-96: the loop over [enumerate(configs)], from index [i] on. *)
Fixpoint bump_seeds (i : nat) (configs : list Config) : outcome (list Config) :=
  match configs with
  | [] => Ok []
  | config :: rest =>
      config' ← bump_seed i config;
      rest' ← bump_seeds (S i) rest;
      Ok (config' :: rest')
  end.

(** Lines 94-96. [deepcopy] gives every replicate a configuration of its
    own; values here are immutable, so a copy is the value itself.
    [range(runs)] is empty for [runs <= 0]. *)
Definition seed_plan (config : Config) (runs : Z) : outcome (list Config) :=
  bump_seeds 0 (replicate (Z.to_nat runs) config).

(** [pool.imap_unordered(f, pending)] yields in completion order. With
    [n] replicates pending, the head of [picks] (modulo [n]) names the one
    that completes next; called with [n = length pending]. Every completion
    order arises from some [picks]. *)
Fixpoint imap_unordered {A} (n : nat) (picks : list nat) (pending : list A)
  : list A :=
  match n with
  | O => []
  | S n' =>
      let k := (hd 0 picks `mod` length pending)%nat in
      match pending !! k with
      | Some x => x :: imap_unordered n' (tl picks) (delete k pending)
      | None => []
      end
  end.

(** Lines 105 and 110: one row appended to the summary, with a header when
    the file is not there yet. *)
Definition aggregate (w : World) (result : Result) (path : string) : M unit :=
  row ← lift (frame result);
  present ← path_exists path;
  to_csv w row path (negb present).

(** Lines 104-106 and 108-111: the body shared by the two loops, consuming
    the replicates in the order given, [i] being the index [enumerate] has
    reached and [summary_path] the variable the loop leaves behind. A
    replicate that raises ends the loop with its exception. In the pool the
    call itself runs in a worker; [Call] is logged where the coordinator
    takes its result. *)
Fixpoint consume (w : World) (runs i : Z) (configs : list Config)
  (summary_path : option string) : M (option string) :=
  match configs with
  | [] => mret summary_path
  | config :: rest =>
      emit (Call config);;
      '(result, path) ← lift (train_dso w config);
      aggregate w result path;;
      t ← lift (Py.getitem result "t");
      emit (Completed (i + 1) runs t);;
      consume w runs (i + 1) rest (Some path)
  end.

(** What a pool worker sends back for its task: the result, or the
    exception when it is a subclass of [Exception]. A worker that exits, or
    whose training never finishes, sends nothing. *)
Definition delivered {A} (o : outcome A) : bool :=
  match o with
  | Ok _ => true
  | Raise SystemExit => false
  | Raise _ => true
  | Hang => false
  end.

(** The replicates whose outcome reaches the coordinator of a pool. *)
Definition arrivals (w : World) (configs : list Config) : list Config :=
  List.filter (λ c, delivered (train_dso w c)) configs.

(** Lines 102-111: farm out the work. With a pool the workers run
    [train_dso]; the coordinator takes what they deliver in the order of
    completion, and once that is used up waits for the results that will not
    come. The workers start replicates on their own: when the loop stops on
    an exception, replicates it has not taken may be running or done. The
    [Call] of the log marks the point where the coordinator has the outcome
    of [train_dso(config)] in hand. *)
Definition farm_out (w : World) (runs n_cores_task : Z) (configs : list Config)
  : M (option string) :=
  if 1 <? n_cores_task
  then emit (Pool n_cores_task);;
       summary_path ←
         consume w runs 0
           (imap_unordered (length (arrivals w configs)) (completion w)
              (arrivals w configs)) None;
       if (length (arrivals w configs) <? length configs)%nat
       then lift Hang
       else mret summary_path
  else consume w runs 0 configs None.

(** Lines 114-120: evaluate the log files. [summary_path] is unbound when no
    replicate ran. *)
Definition evaluate_logs (w : World) (config : Config)
  (summary_path : option string) : M unit :=
  match summary_path with
  | None => lift (Raise (UnboundLocalError "summary_path"))
  | Some path =>
      let dir := path_dirname w path in
      lift (log_eval w (path_join w dir "config.json"));;
      show_count ← lift (get2 config "postprocess" "show_count");
      hof ← lift (get2 config "training" "hof");
      show_hof ← lift (match hof with
                       | VNone => Ok false
                       | _ => hof' ← get2 config "training" "hof"; Py.gt_zero hof'
                       end);
      show_pf ← lift (get2 config "training" "save_pareto_front");
      save_plots ← lift (get2 config "postprocess" "save_plots");
      emit (Analyze dir);;
      lift (analyze_log w show_count show_hof show_pf save_plots)
  end.

(** Lines 81-91: fix incompatible configurations. *)
Definition corrections (w : World) (config : Config) (runs n_cores_task : Z)
  : M (Z * Config) :=
  n ← resolve_cores w runs n_cores_task;
  config ← fix_verbose config n;
  config ← fix_batch config n;
  mret (n, config).

(** Lines 81-96: the corrections, then the seed plan. *)
Definition plan (w : World) (config : Config) (runs n_cores_task : Z)
  : M (Z * Config * list Config) :=
  '(n, config) ← corrections w config runs n_cores_task;
  configs ← lift (seed_plan config runs);
  mret (n, config, configs).

(** Lines 51-78: load the configuration and apply the command line. *)
Definition prepare (w : World) (config_template : string) (seed : option Z)
  (benchmark : option string) : M Config :=
  config ← lift (load_config w (if String.eqb config_template ""
                                then None else Some config_template));
  config ← lift (overwrite_benchmark config benchmark);
  config ← overwrite_seed config seed;
  lift (save_start w config).

(** After line 95 the name [config] is bound to the last replicate's
    configuration, if there is one. *)
Definition main (w : World) (config_template : string) (runs n_cores_task : Z)
  (seed : option Z) (benchmark : option string) : M unit :=
  config ← prepare w config_template seed benchmark;
  '(n, config, configs) ← plan w config runs n_cores_task;
  emit (Running runs);;
  summary_path ← farm_out w runs n configs;
  evaluate_logs w (List.last configs config) summary_path.

(** ** Reading the log and the summary file *)

(** The configurations [train_dso] was called with, in order. *)
Definition calls (l : list event) : list Config :=
  omap (λ e, match e with Call c => Some c | _ => None end) l.

(** The [(result, summary_path)] pairs handed to [to_csv], in order. *)
Definition appends (l : list event) : list (Result * string) :=
  omap (λ e, match e with Append p _ r => Some (r, p) | _ => None end) l.

(** The pools created. *)
Definition pools (l : list event) : list Z :=
  omap (λ e, match e with Pool n => Some n | _ => None end) l.

Definition is_header (l : line) : bool :=
  match l with Header _ => true | Data _ => false end.

Definition header_count (content : list line) : nat :=
  length (List.filter is_header content).

Definition data_count (content : list line) : nat :=
  length (List.filter (λ l, negb (is_header l)) content).

(** The state one completed replicate leaves behind: its call, its row in
    the summary, its progress line. *)
Definition completed (w : World) (runs i : Z) (config : Config)
  (result : Result) (path : string) (s : Sys) : Sys :=
  let header := negb (bool_decide (is_Some (files s !! path))) in
  {| files := <[path := appended (files s !! path) header result]> (files s);
     log := log s ++ [Call config; Append path header result;
                      Completed (i + 1) runs (VFloat (elapsed w config))] |}.

(** The state in which the coordinator has taken the outcome of a
    replicate. *)
Definition called (config : Config) (s : Sys) : Sys :=
  {| files := files s; log := log s ++ [Call config] |}.

(** The state one append that goes through leaves behind. *)
Definition completed_append (row : Result) (path : string) (s : Sys) : Sys :=
  let header := negb (bool_decide (is_Some (files s !! path))) in
  {| files := <[path := appended (files s !! path) header row]> (files s);
     log := log s ++ [Append path header row] |}.

(** A sequence of appends to one summary file. *)
Definition append_rows (w : World) (path : string) (rows : list Result)
  : M unit :=
  foldr (λ row rest, aggregate w row path;; rest) (mret tt) rows.

(** A later process: the files stay, the log starts anew. *)
Definition restart (s : Sys) : Sys := {| files := files s; log := [] |}.

(** A step that starts no replicate, creates no pool and writes no file. *)
Definition quiet (s s' : Sys) : Prop :=
  files s' = files s ∧ calls (log s') = calls (log s) ∧
  appends (log s') = appends (log s) ∧ pools (log s') = pools (log s).

Definition Quiet {A} (m : M A) : Prop :=
  ∀ s r s', m s = (r, s') → quiet s s'.

(** The state after line 99 has printed. *)
Definition running (runs : Z) (s : Sys) : Sys :=
  {| files := files s; log := log s ++ [Running runs] |}.

(** The order in which [farm_out] takes the replicates: the pool's
    completion order with more than one worker, the plan's order otherwise. *)
Definition dispatch_order (w : World) (n : Z) (configs : list Config)
  : list Config :=
  if 1 <? n then imap_unordered (length configs) (completion w) configs
  else configs.

(** The outcomes the coordinator of [farm_out] gets to take, in order:
    with a pool, those the workers deliver. *)
Definition taken (w : World) (n : Z) (configs : list Config) : list Config :=
  if 1 <? n
  then imap_unordered (length (arrivals w configs)) (completion w)
         (arrivals w configs)
  else configs.


(** The state in which the loop of [farm_out] starts. *)
Definition dispatch_start (n : Z) (s : Sys) : Sys :=
  if 1 <? n then {| files := files s; log := log s ++ [Pool n] |} else s.

(** The summary file a replicate's row goes to (line 36). *)
Definition sink (w : World) (config : Config) : string :=
  path_join w (save_path w config) "summary.csv".

(** The content of one summary file after a sequence of appends, [old]
    being what was there before ([None]: no file). *)
Definition written (old : option (list line)) (rows : list Result)
  : option (list line) :=
  foldl (λ o row, Some (appended o (negb (bool_decide (is_Some o))) row))
    old rows.

(** The directories the analysis was run on. *)
Definition analyses (l : list event) : list string :=
  omap (λ e, match e with Analyze d => Some d | _ => None end) l.

(** The progress lines: index, total, duration. *)
Definition progress (l : list event) : list (Z * Z * value) :=
  omap (λ e, match e with Completed i n t => Some (i, n, t) | _ => None end) l.

(** A computation that adds no event selected by [proj] to the log,
    however it ends. *)
Definition Keeps {X A} (proj : event → option X) (m : M A) : Prop :=
  ∀ s r s', m s = (r, s') → omap proj (log s') = omap proj (log s).

(** A computation that ends, normally or with an exception. *)
Definition Halts {A} (m : M A) : Prop :=
  ∀ s s', m s ≠ (Hang, s').

(** The settings [prepare] may assign. *)
Definition prepared_keys : list (string * string) :=
  [("task", "dataset"); ("task", "env"); ("experiment", "seed");
   ("experiment", "starting_seed"); ("experiment", "cmd");
   ("experiment", "timestamp")].

(** ** A concrete world, for evaluation *)

Module Sample.

Definition config (task_type : string) (seed : value) : Config :=
  {[ "experiment" := {[ "seed" := seed; "logdir" := VStr "./log" ]};
     "task" := {[ "task_type" := VStr task_type;
                  "dataset" := VStr "Nguyen-1";
                  "env" := VStr "Pendulum-v0" ]};
     "training" := {[ "verbose" := VBool true;
                      "n_cores_batch" := VInt 2;
                      "hof" := VInt 100;
                      "save_pareto_front" := VBool true ]};
     "postprocess" := {[ "show_count" := VInt 5;
                         "save_plots" := VBool true ]} ]}.

(** A trainer that reports the seed it ran with. *)
Definition train (with_program : bool) (c : Config) : outcome Result :=
  s ← get2 c "experiment" "seed";
  Ok (if with_program
      then {[ "seed" := s; "r" := VInt 1; "program" := VStr "x1" ]}
      else {[ "seed" := s; "r" := VInt 1 ]}).

Definition world (task_type : string) (seed : value) (with_program : bool)
  (picks : list nat) : World :=
  {| load_config := fun _ => Ok (config task_type seed);
     argv := ["run.py"; "--runs"; "3"];
     now := "2026-01-01-000000";
     cpu_count := 4;
     gym_make := fun _ => Ok tt;
     model_train := train with_program;
     elapsed := fun _ => S754_zero false;
     save_path := fun _ => "./log/run";
     path_join := fun a b => String.append a (String.append "/" b);
     path_dirname := fun _ => "./log/run";
     completion := picks;
     log_eval := fun _ => Ok tt;
     analyze_log := fun _ _ _ _ => Ok tt;
     write_fault := fun _ _ => None |}.

Definition start : Sys := {| files := ∅; log := [] |}.

(** A world whose trainer fails on seed 2. *)
Definition train_failing (c : Config) : outcome Result :=
  s ← get2 c "experiment" "seed";
  match s with
  | VInt 2 => Raise (External "diverged")
  | _ => train true c
  end.

Definition failing_world (picks : list nat) : World :=
  {| load_config := fun _ => Ok (config "regression" (VInt 0));
     argv := ["run.py"; "--runs"; "3"];
     now := "2026-01-01-000000";
     cpu_count := 4;
     gym_make := fun _ => Ok tt;
     model_train := train_failing;
     elapsed := fun _ => S754_zero false;
     save_path := fun _ => "./log/run";
     path_join := fun a b => String.append a (String.append "/" b);
     path_dirname := fun _ => "./log/run";
     completion := picks;
     log_eval := fun _ => Ok tt;
     analyze_log := fun _ _ _ _ => Ok tt;
     write_fault := fun _ _ => None |}.

(** Three replicates, one after the other, the last one failing. *)
Definition prepared3 : outcome Config * Sys :=
  prepare (failing_world []) "" None None start.

Definition prepared3_config : Config :=
  match prepared3 with (Ok c, _) => c | _ => ∅ end.
















(** The plan for four replicates on two workers. *)
Definition plan4 : outcome (Z * Config * list Config) * Sys :=
  plan (world "regression" (VInt 0) true [1; 0; 1; 0]%nat)
    (config "regression" (VInt 0)) 4 2 start.

Definition plan4_config : Config :=
  match plan4 with (Ok (_, c, _), _) => c | _ => ∅ end.

Definition plan4_configs : list Config :=
  match plan4 with (Ok (_, _, cs), _) => cs | _ => [] end.

Definition plan4_state : Sys :=
  plan4.2.

(** Four replicates on two workers; the replicate with seed 1 completes
    before the one with seed 0. *)
Definition run4 : outcome unit * Sys :=
  main (world "regression" (VInt 0) true [1; 0; 1; 0]%nat) "" 4 2 None None start.

(** The coordinator's stage of that run, from an empty file system. *)
Definition farm4 : outcome (option string) * Sys :=
  farm_out (world "regression" (VInt 0) true [1; 0; 1; 0]%nat) 4 2
    plan4_configs start.

(** Three replicates, one after the other, from seed 100. *)
Definition run3 : outcome unit * Sys :=
  main (world "regression" (VInt 100) true []) "" 3 1 None None start.

(** The same run once more, by a later process in the same directory. *)
Definition rerun3 : outcome unit * Sys :=
  main (world "regression" (VInt 100) true []) "" 3 1 None None
    (restart run3.2).

(** Two records appended to a new file. *)
Definition row (r : Z) : Result :=
  {[ "r" := VInt r; "t" := VFloat (S754_zero false) ]}.

Definition appended2 : outcome unit * Sys :=
  append_rows (world "regression" (VInt 0) true []) "./log/run/summary.csv"
    [row 1; row 2] start.

(** A configuration without a seed, run with [--seed 7] for three
    replicates. *)
Definition cli_prepared : outcome Config * Sys :=
  prepare (world "regression" VNone true []) "" (Some 7) None start.

Definition cli_config : Config :=
  match cli_prepared with (Ok c, _) => c | _ => ∅ end.

Definition cli_plan : outcome (Z * Config * list Config) * Sys :=
  plan (world "regression" VNone true []) cli_config 3 1 cli_prepared.2.

Definition cli_plan_config : Config :=
  match cli_plan with (Ok (_, c, _), _) => c | _ => ∅ end.

Definition cli_plan_configs : list Config :=
  match cli_plan with (Ok (_, _, cs), _) => cs | _ => [] end.

(** A control task on a host where [gym.make] fails. *)
Definition gymless_world : World :=
  {| load_config := fun _ => Ok (config "control" (VInt 0));
     argv := ["run.py"];
     now := "2026-01-01-000000";
     cpu_count := 4;
     gym_make := fun _ => Raise (External "gym");
     model_train := train true;
     elapsed := fun _ => S754_zero false;
     save_path := fun _ => "./log/run";
     path_join := fun a b => String.append a (String.append "/" b);
     path_dirname := fun _ => "./log/run";
     completion := [];
     log_eval := fun _ => Ok tt;
     analyze_log := fun _ _ _ _ => Ok tt;
     write_fault := fun _ _ => None |}.

Definition control_plan : outcome (Z * Config * list Config) * Sys :=
  plan gymless_world (config "control" (VInt 0)) 4 2 start.

Definition control_plan_config : Config :=
  match control_plan with (Ok (_, c, _), _) => c | _ => ∅ end.

Definition control_plan_configs : list Config :=
  match control_plan with (Ok (_, _, cs), _) => cs | _ => [] end.

Definition control_first : Config :=
  default ∅ (control_plan_configs !! 0%nat).

(** The stages of [run4]. *)
Definition prepared4 : outcome Config * Sys :=
  prepare (world "regression" (VInt 0) true [1; 0; 1; 0]%nat) "" None None start.

Definition prepared4_config : Config :=
  match prepared4 with (Ok c, _) => c | _ => ∅ end.

Definition planned4 : outcome (Z * Config * list Config) * Sys :=
  plan (world "regression" (VInt 0) true [1; 0; 1; 0]%nat)
    prepared4_config 4 2 prepared4.2.

Definition planned4_config : Config :=
  match planned4 with (Ok (_, c, _), _) => c | _ => ∅ end.

Definition planned4_configs : list Config :=
  match planned4 with (Ok (_, _, cs), _) => cs | _ => [] end.

(** A host whose configuration file has no "task" section. *)
Definition taskless_world : World :=
  {| load_config := fun _ => Ok (delete "task" (config "regression" (VInt 0)));
     argv := ["run.py"];
     now := "2026-01-01-000000";
     cpu_count := 4;
     gym_make := fun _ => Ok tt;
     model_train := train true;
     elapsed := fun _ => S754_zero false;
     save_path := fun _ => "./log/run";
     path_join := fun a b => String.append a (String.append "/" b);
     path_dirname := fun _ => "./log/run";
     completion := [];
     log_eval := fun _ => Ok tt;
     analyze_log := fun _ _ _ _ => Ok tt;
     write_fault := fun _ _ => None |}.

Definition taskless3 : outcome unit * Sys :=
  main taskless_world "" 3 2 None None start.

(** A configuration without a seed, run without [--seed]. *)
Definition seedless_prepared : outcome Config * Sys :=
  prepare (world "regression" VNone true []) "" None None start.

Definition seedless_config : Config :=
  match seedless_prepared with (Ok c, _) => c | _ => ∅ end.

Definition seedless3 : outcome unit * Sys :=
  main (world "regression" VNone true []) "" 3 2 None None start.

(** A configuration with "verbose" on and no "n_cores_batch". *)
Definition batchless : Config :=
  <["training" := {[ "verbose" := VBool true;
                     "hof" := VInt 100;
                     "save_pareto_front" := VBool true ]}]>
    (config "regression" (VInt 0)).

End Sample.

(** ** Reasoning about the two monads *)

Lemma outcome_bind_ok {A B} (o : outcome A) (f : A → outcome B) (b : B) :
  o ≫= f = Ok b → ∃ a, o = Ok a ∧ f a = Ok b.
Proof. destruct o as [a|e|]; [eauto | discriminate | discriminate]. Qed.

Lemma bind_ok {A B} (m : M A) (f : A → M B) (s s' : Sys) (b : B) :
  (m ≫= f) s = (Ok b, s') → ∃ a s1, m s = (Ok a, s1) ∧ f a s1 = (Ok b, s').
Proof.
  unfold mbind, M_bind.
  destruct (m s) as [[a|e|] s1]; [eauto | discriminate | discriminate].
Qed.

Lemma bind_run {A B} (m : M A) (f : A → M B) (s s1 : Sys) (a : A) :
  m s = (Ok a, s1) → (m ≫= f) s = f a s1.
Proof. intros H. unfold mbind, M_bind. by rewrite H. Qed.

Lemma bind_raise {A B} (m : M A) (f : A → M B) (s s1 : Sys) (e : exn) :
  m s = (Raise e, s1) → (m ≫= f) s = (Raise e, s1).
Proof. intros H. unfold mbind, M_bind. by rewrite H. Qed.

Lemma bind_hang {A B} (m : M A) (f : A → M B) (s s1 : Sys) :
  m s = (Hang, s1) → (m ≫= f) s = (Hang, s1).
Proof. intros H. unfold mbind, M_bind. by rewrite H. Qed.

Lemma lift_ok {A} (o : outcome A) (s s' : Sys) (a : A) :
  lift o s = (Ok a, s') → o = Ok a ∧ s' = s.
Proof. unfold lift. by intros [= -> ->]. Qed.

(** ** Dictionary updates *)

Lemma set2_ok (config : Config) (sec key : string) (v : value) (d : gmap string value) :
  config !! sec = Some d →
  set2 config sec key v = Ok (<[sec := <[key := v]> d]> config).
Proof. intros H. unfold set2, Py.getitem. by rewrite H. Qed.

Lemma set2_inv (config config' : Config) (sec key : string) (v : value) :
  set2 config sec key v = Ok config' →
  ∃ d, config !! sec = Some d ∧ config' = <[sec := <[key := v]> d]> config.
Proof.
  unfold set2, Py.getitem. destruct (config !! sec) as [d|] eqn:E; [|discriminate].
  intros [= <-]. eauto.
Qed.

Lemma get2_set2_eq (config config' : Config) (sec key : string) (v : value) :
  set2 config sec key v = Ok config' → get2 config' sec key = Ok v.
Proof.
  intros (d & _ & ->)%set2_inv. unfold get2, Py.getitem.
  rewrite lookup_insert_eq. simpl. by rewrite lookup_insert_eq.
Qed.

Lemma get2_set2_ne (config config' : Config) (sec key sec' key' : string) (v : value) :
  set2 config sec key v = Ok config' → (sec, key) ≠ (sec', key') →
  get2 config' sec' key' = get2 config sec' key'.
Proof.
  intros (d & Hd & ->)%set2_inv Hne. unfold get2, Py.getitem.
  destruct (decide (sec = sec')) as [<-|Hs].
  - rewrite lookup_insert_eq, Hd. simpl.
    rewrite lookup_insert_ne; [done | congruence].
  - by rewrite lookup_insert_ne.
Qed.

(** ** The seed plan *)

Lemma bump_seed_int (config : Config) (s : Z) (i : nat) :
  get2 config "experiment" "seed" = Ok (VInt s) →
  bump_seed i config = set2 config "experiment" "seed" (VInt (s + Z.of_nat i)).
Proof. intros H. unfold bump_seed. by rewrite H. Qed.

Lemma get2_inv (config : Config) (sec key : string) (v : value) :
  get2 config sec key = Ok v → ∃ d, config !! sec = Some d ∧ d !! key = Some v.
Proof.
  unfold get2, Py.getitem. destruct (config !! sec) as [d|]; [|discriminate].
  simpl. destruct (d !! key) eqn:E; [|discriminate]. intros [= <-]. eauto.
Qed.

Lemma bump_seeds_replicate (config : Config) (d : gmap string value) (s : Z)
  (n i : nat) :
  config !! "experiment" = Some d → d !! "seed" = Some (VInt s) →
  bump_seeds i (replicate n config)
  = Ok ((λ k, <["experiment" := <["seed" := VInt (s + Z.of_nat k)]> d]> config)
          <$> seq i n).
Proof.
  intros Hd Hs. revert i. induction n as [|n IH]; intros i; [done|].
  simpl. rewrite (bump_seed_int config s i).
  - rewrite (set2_ok _ _ _ _ d Hd). simpl. by rewrite IH.
  - unfold get2, Py.getitem. rewrite Hd. simpl. by rewrite Hs.
Qed.

(** C1. The seed plan for [runs] replicates over a base configuration with
    integer seed [s] has exactly [runs] configurations; the one at index [i]
    carries the seed [s + i] and is the base with that one assignment made,
    so every other setting reads as in the base. *)
Theorem seed_plan_offsets (config : Config) (runs s : Z) :
  0 ≤ runs →
  get2 config "experiment" "seed" = Ok (VInt s) →
  ∃ configs,
    seed_plan config runs = Ok configs ∧
    Z.of_nat (length configs) = runs ∧
    ∀ (i : nat) (c : Config), configs !! i = Some c →
      get2 c "experiment" "seed" = Ok (VInt (s + Z.of_nat i)) ∧
      set2 config "experiment" "seed" (VInt (s + Z.of_nat i)) = Ok c ∧
      ∀ sec key, (sec, key) ≠ ("experiment", "seed") →
                 get2 c sec key = get2 config sec key.
Proof.
  intros Hruns (d & Hd & Hs)%get2_inv.
  eexists. split; [by apply (bump_seeds_replicate config d s)|].
  split; [rewrite length_fmap, length_seq; lia|].
  intros i c Hi. apply list_lookup_fmap_Some_1 in Hi as (k & -> & Hk).
  apply lookup_seq in Hk as [-> _]. simpl.
  pose proof (set2_ok config "experiment" "seed" (VInt (s + Z.of_nat i)) d Hd) as Hset.
  split; [by eapply get2_set2_eq|]. split; [done|].
  intros sec key Hne. by eapply get2_set2_ne.
Qed.

Lemma seed_plan_offsets_witness :
  get2 (Sample.config "regression" (VInt 100)) "experiment" "seed" = Ok (VInt 100) ∧
  ∃ configs,
    seed_plan (Sample.config "regression" (VInt 100)) 3 = Ok configs ∧
    Z.of_nat (length configs) = 3.
Proof.
  split; [reflexivity|].
  destruct (seed_plan_offsets (Sample.config "regression" (VInt 100)) 3 100)
    as (configs & Hplan & Hlen & _); [lia | reflexivity |].
  exists configs. split; assumption.
Defined.

Lemma bump_seed_inv (i : nat) (config config' : Config) :
  bump_seed i config = Ok config' →
  ∃ v, set2 config "experiment" "seed" v = Ok config'.
Proof.
  unfold bump_seed. intros (s & _ & (s' & _ & H)%outcome_bind_ok)%outcome_bind_ok.
  eauto.
Qed.

Lemma bump_seeds_inv (i : nat) (configs configs' : list Config) :
  bump_seeds i configs = Ok configs' →
  Forall2 (λ c c', ∃ v, set2 c "experiment" "seed" v = Ok c') configs configs'.
Proof.
  revert i configs'. induction configs as [|c rest IH]; intros i configs'; simpl.
  - intros [= <-]. constructor.
  - intros (c' & Hc & (rest' & Hrest & [= <-])%outcome_bind_ok)%outcome_bind_ok.
    constructor; [by eapply bump_seed_inv | by eapply IH].
Qed.

(** Every replicate's configuration is the base with a seed assigned. *)
Lemma seed_plan_members (config : Config) (runs : Z) (configs : list Config) :
  seed_plan config runs = Ok configs →
  ∀ c, c ∈ configs → ∃ v, set2 config "experiment" "seed" v = Ok c.
Proof.
  intros H%bump_seeds_inv c Hc.
  apply list_elem_of_lookup in Hc as [i Hi].
  destruct (Forall2_lookup_r _ _ _ _ _ H Hi) as (c0 & Hc0 & Hset).
  apply lookup_replicate in Hc0 as [-> _]. exact Hset.
Qed.

Lemma seed_plan_length (config : Config) (runs : Z) (configs : list Config) :
  seed_plan config runs = Ok configs → length configs = Z.to_nat runs.
Proof.
  intros H%bump_seeds_inv. apply Forall2_length in H.
  by rewrite length_replicate in H.
Qed.

(** ** Worker-count resolution *)

(** C4. [n_cores_task = -1] resolves to the smaller of the host's core count
    and [runs]; a request above [runs] resolves to [runs] and prints the
    warning; the resolved count never exceeds [runs]. *)
Theorem worker_count_resolution (w : World) (runs n_cores_task : Z) (s : Sys) :
  ∃ n s',
    resolve_cores w runs n_cores_task s = (Ok n, s') ∧
    n ≤ runs ∧
    files s' = files s ∧
    (n_cores_task = -1 → n = Z.min (Z.pos (cpu_count w)) runs) ∧
    (runs < n_cores_task → n = runs ∧ log s' = log s ++ [WarnCores runs]).
Proof.
  unfold resolve_cores, clamp_cores, all_cores.
  destruct (Z.eqb_spec n_cores_task (-1)) as [->|Hn];
    (match goal with |- context [runs <? ?m] =>
       destruct (Z.ltb_spec runs m) as [Hlt|Hge] end).
  - eexists _, _. split; [reflexivity|]. simpl. repeat split; lia.
  - eexists _, _. split; [reflexivity|]. simpl. repeat split; lia.
  - eexists _, _. split; [reflexivity|]. simpl. repeat split; lia.
  - eexists _, _. split; [reflexivity|]. simpl. repeat split; lia.
Qed.

Lemma worker_count_resolution_witness :
  ∃ s', resolve_cores (Sample.world "regression" (VInt 0) true []) 3 8 Sample.start
        = (Ok 3, s') ∧ log s' = [WarnCores 3].
Proof.
  destruct (worker_count_resolution (Sample.world "regression" (VInt 0) true [])
              3 8 Sample.start) as (n & s' & Hrun & _ & _ & _ & Hclamp).
  destruct Hclamp as [-> Hlog]; [lia|].
  exists s'. split; [exact Hrun | exact Hlog].
Defined.

(** ** Benchmark routing *)

Lemma eq_str_ne (v : value) (s : string) : v ≠ VStr s → Py.eq_str v s = false.
Proof.
  intros H. destruct v; try reflexivity. simpl.
  apply String.eqb_neq. congruence.
Qed.



(** ** The replicate executor *)

Lemma strip_program (r : Result) (t : spec_float) (prog : value) :
  r !! "program" = Some prog →
  strip r t = Ok (delete "program" (<["t" := VFloat t]> r)).
Proof.
  intros H. unfold strip, Py.getitem.
  rewrite lookup_insert_ne by done. by rewrite H.
Qed.

Lemma strip_no_program (r : Result) (t : spec_float) :
  r !! "program" = None → strip r t = Raise (KeyError "program").
Proof.
  intros H. unfold strip, Py.getitem.
  rewrite lookup_insert_ne by done. by rewrite H.
Qed.

(** What [train_dso] returns is a record with the key "t" and without the
    key "program". *)
Lemma train_dso_record (w : World) (config : Config) (out : Result) (path : string) :
  train_dso w config = Ok (out, path) →
  out !! "t" = Some (VFloat (elapsed w config)) ∧ out !! "program" = None ∧
  path = path_join w (save_path w config) "summary.csv".
Proof.
  unfold train_dso.
  intros (_ & _ & (r & _ & (r' & Hstrip & [= <- <-])%outcome_bind_ok)%outcome_bind_ok)%outcome_bind_ok.
  unfold strip in Hstrip.
  apply outcome_bind_ok in Hstrip as (_ & _ & [= <-]).
  rewrite lookup_delete_ne by done.
  by rewrite lookup_insert_eq, lookup_delete_eq.
Qed.

(** C6, as the code has it. When the training call returns a record with a
    "program" entry, [train_dso] returns that record with the measured
    duration under the key "t" and with "program" removed, every other entry
    unchanged; when the record has no "program" entry, [train_dso] raises
    [KeyError] and returns no record. *)
Theorem executor_record (w : World) (config : Config) (r : Result) :
  precondition w config = Ok tt →
  model_train w config = Ok r →
  (∀ prog, r !! "program" = Some prog →
     ∃ out,
       train_dso w config
       = Ok (out, path_join w (save_path w config) "summary.csv") ∧
       out !! "t" = Some (VFloat (elapsed w config)) ∧
       out !! "program" = None ∧
       ∀ key, key ≠ "t" → key ≠ "program" → out !! key = r !! key) ∧
  (r !! "program" = None → train_dso w config = Raise (KeyError "program")).
Proof.
  intros Hpre Htrain. split.
  - intros prog Hprog. eexists. unfold train_dso. rewrite Hpre, Htrain. simpl.
    rewrite (strip_program r _ prog Hprog). simpl. split; [reflexivity|].
    split; [by rewrite lookup_delete_ne, lookup_insert_eq|].
    split; [by rewrite lookup_delete_eq|].
    intros key Ht Hp. by rewrite lookup_delete_ne, lookup_insert_ne.
  - intros Hnone. unfold train_dso. rewrite Hpre, Htrain. simpl.
    by rewrite strip_no_program.
Qed.

Lemma executor_record_witness :
  precondition (Sample.world "regression" (VInt 7) true [])
    (Sample.config "regression" (VInt 7)) = Ok tt ∧
  ∃ out path,
    train_dso (Sample.world "regression" (VInt 7) true [])
      (Sample.config "regression" (VInt 7)) = Ok (out, path) ∧
    out !! "t" = Some (VFloat (S754_zero false)) ∧
    out !! "program" = None.
Proof.
  split; [reflexivity|].
  destruct (executor_record (Sample.world "regression" (VInt 7) true [])
              (Sample.config "regression" (VInt 7))
              {[ "seed" := VInt 7; "r" := VInt 1; "program" := VStr "x1" ]})
    as [Hwith _]; [reflexivity | reflexivity |].
  destruct (Hwith (VStr "x1")) as (out & Hrun & Ht & Hp & _); [reflexivity|].
  eexists out, _. split; [exact Hrun|]. split; [exact Ht | exact Hp].
Defined.

(** C6, as stated, fails: a training call that returns a record without
    "program" makes the executor raise instead of returning a record, and
    the duration is stored under "t", there is no "time_elapsed" entry. *)
Lemma executor_record_counterexample :
  (model_train (Sample.world "regression" (VInt 7) false [])
     (Sample.config "regression" (VInt 7))
   = Ok {[ "seed" := VInt 7; "r" := VInt 1 ]} ∧
   train_dso (Sample.world "regression" (VInt 7) false [])
     (Sample.config "regression" (VInt 7))
   = Raise (KeyError "program")) ∧
  (∃ out path,
     train_dso (Sample.world "regression" (VInt 7) true [])
       (Sample.config "regression" (VInt 7)) = Ok (out, path) ∧
     out !! "time_elapsed" = None).
Proof.
  split; [split; reflexivity|].
  eexists _, _. split; reflexivity.
Qed.

(** ** Corrections for a parallel run *)

Lemma fix_verbose_inv (config config' : Config) (n : Z) (s s' : Sys) :
  fix_verbose config n s = (Ok config', s') →
  ∃ verbose,
    get2 config "training" "verbose" = Ok verbose ∧
    if Py.truthy verbose && (1 <? n)
    then set2 config "training" "verbose" (VBool false) = Ok config' ∧
         files s' = files s ∧ log s' = log s ++ [WarnVerbose]
    else config' = config ∧ s' = s.
Proof.
  unfold fix_verbose. intros (verbose & s1 & [Hv ->]%lift_ok & H)%bind_ok.
  exists verbose. split; [exact Hv|].
  destruct (Py.truthy verbose && (1 <? n)).
  - apply bind_ok in H as ([] & s2 & [= <-] & [Hset ->]%lift_ok). by simpl.
  - by injection H as <- <-.
Qed.

Lemma fix_batch_inv (config config' : Config) (n : Z) (s s' : Sys) :
  fix_batch config n s = (Ok config', s') →
  ∃ batch,
    get2 config "training" "n_cores_batch" = Ok batch ∧
    if Py.ne_one batch && (1 <? n)
    then set2 config "training" "n_cores_batch" (VInt 1) = Ok config' ∧
         files s' = files s ∧ log s' = log s ++ [WarnBatch]
    else config' = config ∧ s' = s.
Proof.
  unfold fix_batch. intros (batch & s1 & [Hv ->]%lift_ok & H)%bind_ok.
  exists batch. split; [exact Hv|].
  destruct (Py.ne_one batch && (1 <? n)).
  - apply bind_ok in H as ([] & s2 & [= <-] & [Hset ->]%lift_ok). by simpl.
  - by injection H as <- <-.
Qed.

Lemma corrections_inv (w : World) (config config' : Config)
  (runs n_cores_task n : Z) (s s' : Sys) :
  corrections w config runs n_cores_task s = (Ok (n, config'), s') →
  ∃ s1 config1 s2,
    resolve_cores w runs n_cores_task s = (Ok n, s1) ∧
    fix_verbose config n s1 = (Ok config1, s2) ∧
    fix_batch config1 n s2 = (Ok config', s').
Proof.
  unfold corrections.
  intros (n0 & s1 & Hres & (c1 & s2 & Hv & (c2 & s3 & Hb & [= <- <- <-])%bind_ok)%bind_ok)%bind_ok.
  eauto 10.
Qed.

Lemma plan_corrections (w : World) (config config' : Config)
  (runs n_cores_task n : Z) (configs : list Config) (s s' : Sys) :
  plan w config runs n_cores_task s = (Ok (n, config', configs), s') →
  corrections w config runs n_cores_task s = (Ok (n, config'), s') ∧
  seed_plan config' runs = Ok configs.
Proof.
  unfold plan. intros ([n0 c0] & s1 & Hcorr & H)%bind_ok.
  apply bind_ok in H as (cs & s2 & [Hplan ->]%lift_ok & [= <- <- <- <-]).
  done.
Qed.

Lemma plan_inv (w : World) (config config' : Config) (runs n_cores_task n : Z)
  (configs : list Config) (s s' : Sys) :
  plan w config runs n_cores_task s = (Ok (n, config', configs), s') →
  ∃ s1 config1 s2,
    resolve_cores w runs n_cores_task s = (Ok n, s1) ∧
    fix_verbose config n s1 = (Ok config1, s2) ∧
    fix_batch config1 n s2 = (Ok config', s') ∧
    seed_plan config' runs = Ok configs.
Proof.
  intros [(s1 & c1 & s2 & H1 & H2 & H3)%corrections_inv Hplan]%plan_corrections.
  eauto 10.
Qed.

Lemma resolve_cores_le (w : World) (runs n_cores_task n : Z) (s s' : Sys) :
  resolve_cores w runs n_cores_task s = (Ok n, s') → n ≤ runs ∧ files s' = files s.
Proof.
  unfold resolve_cores, clamp_cores.
  destruct (Z.ltb_spec runs (all_cores w n_cores_task)) as [Hlt|Hge].
  - intros [= <- <-]. simpl. split; [lia | done].
  - intros [= <- <-]. done.
Qed.

(** C7, as the code has it. When the resolved worker count (after -1 has
    become the core count and the result has been clamped to [runs]) exceeds
    one, the configuration the replicates are copied from has "verbose" set to [False] if it was true
    and "n_cores_batch" set to 1 if it differed from 1, each change with its
    warning; every replicate's configuration is that corrected one with its
    seed assigned, so it reads the corrected settings. *)
Theorem parallel_corrections (w : World) (config config' : Config)
  (runs n_cores_task n : Z) (configs : list Config) (s s' : Sys) :
  plan w config runs n_cores_task s = (Ok (n, config', configs), s') →
  1 < n →
  ∃ verbose batch s1 warnings,
    resolve_cores w runs n_cores_task s = (Ok n, s1) ∧
    get2 config "training" "verbose" = Ok verbose ∧
    get2 config "training" "n_cores_batch" = Ok batch ∧
    get2 config' "training" "verbose"
    = Ok (if Py.truthy verbose then VBool false else verbose) ∧
    get2 config' "training" "n_cores_batch"
    = Ok (if Py.ne_one batch then VInt 1 else batch) ∧
    log s' = log s1 ++ warnings ∧
    (Py.truthy verbose = true → WarnVerbose ∈ warnings) ∧
    (Py.ne_one batch = true → WarnBatch ∈ warnings) ∧
    ∀ c, c ∈ configs →
      (∃ seed, set2 config' "experiment" "seed" seed = Ok c) ∧
      get2 c "training" "verbose" = get2 config' "training" "verbose" ∧
      get2 c "training" "n_cores_batch" = get2 config' "training" "n_cores_batch".
Proof.
  intros (s1 & c1 & s2 & Hres & Hv & Hb & Hplan)%plan_inv Hn.
  apply fix_verbose_inv in Hv as (verbose & Hverbose & Hv).
  apply fix_batch_inv in Hb as (batch & Hbatch & Hb).
  assert ((1 <? n) = true) as Hlt by (apply Z.ltb_lt; lia).
  rewrite Hlt, andb_true_r in Hv, Hb.
  assert (get2 config "training" "n_cores_batch" = Ok batch
          ∧ get2 c1 "training" "verbose"
            = Ok (if Py.truthy verbose then VBool false else verbose)
          ∧ ∃ ev1, log s2 = log s1 ++ ev1
                   ∧ (Py.truthy verbose = true → WarnVerbose ∈ ev1))
    as (Hbatch0 & Hverbose1 & ev1 & Hlog1 & Hw1).
  { destruct (Py.truthy verbose).
    - destruct Hv as (Hset & _ & Hlog).
      split; [by rewrite <- (get2_set2_ne _ _ _ _ _ _ _ Hset)|].
      split; [by eapply get2_set2_eq|].
      exists [WarnVerbose]. split; [done|]. intros _. apply list_elem_of_here.
    - destruct Hv as [-> ->]. split; [done|]. split; [done|].
      exists []. split; [by rewrite app_nil_r | done]. }
  assert (get2 config' "training" "verbose"
          = Ok (if Py.truthy verbose then VBool false else verbose)
          ∧ get2 config' "training" "n_cores_batch"
            = Ok (if Py.ne_one batch then VInt 1 else batch)
          ∧ ∃ ev2, log s' = log s2 ++ ev2
                   ∧ (Py.ne_one batch = true → WarnBatch ∈ ev2))
    as (Hverbose2 & Hbatch2 & ev2 & Hlog2 & Hw2).
  { destruct (Py.ne_one batch).
    - destruct Hb as (Hset & _ & Hlog).
      split; [by rewrite (get2_set2_ne _ _ _ _ _ _ _ Hset)|].
      split; [by eapply get2_set2_eq|].
      exists [WarnBatch]. split; [done|]. intros _. apply list_elem_of_here.
    - destruct Hb as [-> ->]. split; [done|]. split; [done|].
      exists []. split; [by rewrite app_nil_r | done]. }
  exists verbose, batch, s1, (ev1 ++ ev2).
  split; [done|]. split; [done|]. split; [done|]. split; [done|].
  split; [done|].
  split; [by rewrite Hlog2, Hlog1, app_assoc|].
  split; [intros H; apply elem_of_app; left; auto|].
  split; [intros H; apply elem_of_app; right; auto|].
  intros c Hc. destruct (seed_plan_members _ _ _ Hplan c Hc) as [seed Hseed].
  split; [eauto|].
  split; by eapply get2_set2_ne.
Qed.

Lemma parallel_corrections_witness :
  Sample.plan4 = (Ok (2, Sample.plan4_config, Sample.plan4_configs), Sample.plan4_state) ∧
  get2 Sample.plan4_config "training" "verbose" = Ok (VBool false) ∧
  get2 Sample.plan4_config "training" "n_cores_batch" = Ok (VInt 1) ∧
  length Sample.plan4_configs = 4%nat.
Proof.
  assert (Sample.plan4
          = (Ok (2, Sample.plan4_config, Sample.plan4_configs), Sample.plan4_state))
    as Hplan by reflexivity.
  split; [exact Hplan|].
  destruct (parallel_corrections _ _ _ _ _ _ _ _ _ Hplan)
    as (verbose & batch & s1 & warnings & _ & Hv & Hb & Hv' & Hb' & _); [lia|].
  injection Hv as <-. injection Hb as <-.
  split; [exact Hv'|]. split; [exact Hb' | reflexivity].
Defined.

(** C7, as stated, fails: two workers requested for a single replicate
    resolve to one worker, and the replicate's configuration keeps
    "verbose" on and "n_cores_batch" at 2; the only warning is the one about
    the worker count. *)
Lemma parallel_corrections_counterexample :
  plan (Sample.world "regression" (VInt 0) true [])
    (Sample.config "regression" (VInt 0)) 1 2 Sample.start
  = (Ok (1, Sample.config "regression" (VInt 0),
         [Sample.config "regression" (VInt 0)]),
     {| files := ∅; log := [WarnCores 1] |}) ∧
  get2 (Sample.config "regression" (VInt 0)) "training" "verbose"
  = Ok (VBool true) ∧
  get2 (Sample.config "regression" (VInt 0)) "training" "n_cores_batch"
  = Ok (VInt 2).
Proof. repeat split; reflexivity. Qed.

(** C10. The corrections read the worker count after it has been clamped to
    [runs]: with a resolved count of at most one they change nothing and
    print nothing; in particular with [runs = 1], whatever [n_cores_task]
    was asked for, the single replicate keeps "verbose" and "n_cores_batch"
    as the base configuration has them. *)
Theorem clamp_precedes_corrections (w : World) (config config' : Config)
  (runs n_cores_task n : Z) (configs : list Config) (s s' : Sys) :
  plan w config runs n_cores_task s = (Ok (n, config', configs), s') →
  ∃ s1,
    resolve_cores w runs n_cores_task s = (Ok n, s1) ∧
    n ≤ runs ∧
    (n ≤ 1 → config' = config ∧ s' = s1) ∧
    (runs = 1 →
     config' = config ∧ s' = s1 ∧
     ∃ c, configs = [c] ∧
          get2 c "training" "verbose" = get2 config "training" "verbose" ∧
          get2 c "training" "n_cores_batch" = get2 config "training" "n_cores_batch").
Proof.
  intros (s1 & c1 & s2 & Hres & Hv & Hb & Hplan)%plan_inv.
  exists s1. split; [exact Hres|].
  destruct (resolve_cores_le _ _ _ _ _ _ Hres) as [Hle _]. split; [exact Hle|].
  assert (n ≤ 1 → config' = config ∧ s' = s1) as Hserial.
  { intros Hn. assert ((1 <? n) = false) as Hlt by (apply Z.ltb_ge; lia).
    apply fix_verbose_inv in Hv as (verbose & _ & Hv).
    apply fix_batch_inv in Hb as (batch & _ & Hb).
    rewrite Hlt, andb_false_r in Hv, Hb.
    destruct Hv as [-> ->]. destruct Hb as [-> ->]. done. }
  split; [exact Hserial|].
  intros ->. destruct Hserial as [-> ->]; [lia|].
  split; [done|]. split; [done|].
  pose proof (seed_plan_length _ _ _ Hplan) as Hlen.
  destruct configs as [|c [|c' rest]]; try discriminate Hlen.
  exists c. split; [done|].
  destruct (seed_plan_members _ _ _ Hplan c) as [seed Hseed];
    [apply list_elem_of_here|].
  split; by eapply get2_set2_ne.
Qed.

Lemma clamp_precedes_corrections_witness :
  ∃ c s',
    plan (Sample.world "regression" (VInt 0) true [])
      (Sample.config "regression" (VInt 0)) 1 (-1) Sample.start
    = (Ok (1, Sample.config "regression" (VInt 0), [c]), s') ∧
    get2 c "training" "verbose" = Ok (VBool true) ∧
    get2 c "training" "n_cores_batch" = Ok (VInt 2).
Proof.
  exists (Sample.config "regression" (VInt 0)),
    {| files := ∅; log := [WarnCores 1] |}.
  assert (plan (Sample.world "regression" (VInt 0) true [])
            (Sample.config "regression" (VInt 0)) 1 (-1) Sample.start
          = (Ok (1, Sample.config "regression" (VInt 0),
                 [Sample.config "regression" (VInt 0)]),
             {| files := ∅; log := [WarnCores 1] |})) as Hplan by reflexivity.
  split; [exact Hplan|].
  destruct (clamp_precedes_corrections _ _ _ _ _ _ _ _ _ Hplan)
    as (s1 & _ & _ & _ & Hone).
  destruct Hone as (_ & _ & c & [= <-] & Hv & Hb); [reflexivity|].
  split; [exact Hv | exact Hb].
Defined.

(** ** The coordinator's loop *)

Lemma aggregate_ok_inv (w : World) (r : Result) (p : string) (s s' : Sys) :
  aggregate w r p s = (Ok tt, s') →
  frame r = Ok r ∧ write_fault w p (files s !! p) = None ∧
  s' = {| files := <[p := appended (files s !! p)
                           (negb (bool_decide (is_Some (files s !! p)))) r]>
                     (files s);
          log := log s ++ [Append p (negb (bool_decide (is_Some (files s !! p)))) r] |}.
Proof.
  unfold aggregate, frame, mbind, M_bind, lift, path_exists, to_csv.
  destruct (forallb _ _); [|discriminate].
  destruct (write_fault w p (files s !! p)) as [[e kept]|]; [discriminate|].
  by intros [= <-].
Qed.

Lemma aggregate_ok (w : World) (r : Result) (p : string) (s : Sys) :
  frame r = Ok r → write_fault w p (files s !! p) = None →
  aggregate w r p s
  = (Ok tt,
     {| files := <[p := appended (files s !! p)
                           (negb (bool_decide (is_Some (files s !! p)))) r]>
                   (files s);
        log := log s ++ [Append p (negb (bool_decide (is_Some (files s !! p)))) r] |}).
Proof.
  intros Hframe Hfault.
  unfold aggregate, mbind, M_bind, lift, path_exists, to_csv.
  by rewrite Hframe, Hfault.
Qed.

(** One turn of the loop that goes through. *)
Lemma consume_cons_ok (w : World) (runs i : Z) (c : Config) (rest : list Config)
  (sp : option string) (s : Sys) (r : Result) (p : string) :
  train_dso w c = Ok (r, p) →
  frame r = Ok r → write_fault w p (files s !! p) = None →
  consume w runs i (c :: rest) sp s
  = consume w runs (i + 1) rest (Some p) (completed w runs i c r p s).
Proof.
  intros H Hframe Hfault. destruct (train_dso_record _ _ _ _ H) as (Ht & _ & _).
  pose proof (aggregate_ok w r p (called c s) Hframe Hfault) as Hagg.
  simpl. unfold mbind at 1, M_bind at 1. unfold emit at 1. fold (called c s).
  unfold mbind at 1, M_bind at 1. unfold lift at 1. rewrite H.
  unfold mbind at 1, M_bind at 1. rewrite Hagg.
  unfold mbind at 1, M_bind at 1. unfold lift at 1, Py.getitem. rewrite Ht.
  unfold mbind at 1, M_bind at 1. unfold emit at 1.
  unfold completed, called. simpl. by rewrite <- !app_assoc.
Qed.

Lemma consume_cons_raise (w : World) (runs i : Z) (c : Config)
  (rest : list Config) (sp : option string) (s : Sys) (e : exn) :
  train_dso w c = Raise e →
  consume w runs i (c :: rest) sp s = (Raise e, called c s).
Proof.
  intros H. simpl. unfold mbind, M_bind, emit, lift, called. simpl. by rewrite H.
Qed.

Lemma consume_cons_hang (w : World) (runs i : Z) (c : Config)
  (rest : list Config) (sp : option string) (s : Sys) :
  train_dso w c = Hang →
  consume w runs i (c :: rest) sp s = (Hang, called c s).
Proof.
  intros H. simpl. unfold mbind, M_bind, emit, lift, called. simpl. by rewrite H.
Qed.

(** One turn of the loop whose append fails. *)
Lemma consume_cons_sink (w : World) (runs i : Z) (c : Config)
  (rest : list Config) (sp : option string) (s s' : Sys) (r : Result)
  (p : string) (e : exn) :
  train_dso w c = Ok (r, p) →
  aggregate w r p (called c s) = (Raise e, s') →
  consume w runs i (c :: rest) sp s = (Raise e, s').
Proof.
  intros H Hagg.
  simpl. unfold mbind at 1, M_bind at 1. unfold emit at 1. fold (called c s).
  unfold mbind at 1, M_bind at 1. unfold lift at 1. rewrite H.
  unfold mbind at 1, M_bind at 1. by rewrite Hagg.
Qed.

Lemma aggregate_no_hang (w : World) (r : Result) (p : string) (s s' : Sys) :
  aggregate w r p s ≠ (Hang, s').
Proof.
  unfold aggregate, frame, mbind, M_bind, lift, path_exists, to_csv.
  destruct (forallb _ _); [|discriminate].
  by destruct (write_fault w p (files s !! p)) as [[e kept]|].
Qed.

(** A loop that ends normally has gone through each of its turns. *)
Lemma consume_cons_inv (w : World) (runs i : Z) (c : Config) (rest : list Config)
  (sp sp' : option string) (s s' : Sys) :
  consume w runs i (c :: rest) sp s = (Ok sp', s') →
  ∃ r p,
    train_dso w c = Ok (r, p) ∧
    frame r = Ok r ∧ write_fault w p (files s !! p) = None ∧
    consume w runs (i + 1) rest (Some p) (completed w runs i c r p s)
    = (Ok sp', s').
Proof.
  intros H. destruct (train_dso w c) as [[r p]|e|] eqn:E.
  - exists r, p. split; [done|].
    destruct (aggregate w r p (called c s)) as [[[]|e|] s1] eqn:Hagg.
    + apply aggregate_ok_inv in Hagg as (Hframe & Hfault & _).
      change (files (called c s)) with (files s) in Hfault.
      do 2 (split; [done|]).
      by rewrite (consume_cons_ok w runs i c rest sp s r p E Hframe Hfault) in H.
    + rewrite (consume_cons_sink _ _ _ _ _ _ _ _ _ _ _ E Hagg) in H. discriminate.
    + by apply aggregate_no_hang in Hagg.
  - rewrite (consume_cons_raise _ _ _ _ _ _ _ _ E) in H. discriminate.
  - rewrite (consume_cons_hang _ _ _ _ _ _ _ E) in H. discriminate.
Qed.

Lemma calls_app (l1 l2 : list event) : calls (l1 ++ l2) = calls l1 ++ calls l2.
Proof. apply omap_app. Qed.

Lemma appends_app (l1 l2 : list event) :
  appends (l1 ++ l2) = appends l1 ++ appends l2.
Proof. apply omap_app. Qed.

Lemma pools_app (l1 l2 : list event) : pools (l1 ++ l2) = pools l1 ++ pools l2.
Proof. apply omap_app. Qed.

(** A loop that ends normally has called [train_dso] on each configuration
    in turn and handed each result to [to_csv]. *)
Lemma consume_ok (w : World) (runs : Z) (configs : list Config) :
  ∀ (i : Z) (sp sp' : option string) (s s' : Sys),
    consume w runs i configs sp s = (Ok sp', s') →
    ∃ rows,
      Forall2 (λ c rp, train_dso w c = Ok rp) configs rows ∧
      calls (log s') = calls (log s) ++ configs ∧
      appends (log s') = appends (log s) ++ rows ∧
      pools (log s') = pools (log s).
Proof.
  induction configs as [|c rest IH]; intros i sp sp' s s' H.
  - injection H as <- <-. exists []. by rewrite !app_nil_r.
  - apply consume_cons_inv in H as (r & p & E & _ & _ & H).
      apply IH in H as (rows & Hrows & Hcalls & Happ & Hpools).
      exists ((r, p) :: rows). split; [by constructor|].
      unfold completed in Hcalls, Happ, Hpools. simpl in Hcalls, Happ, Hpools.
      rewrite calls_app in Hcalls. rewrite appends_app in Happ.
      rewrite pools_app in Hpools. simpl in Hcalls, Happ, Hpools.
      rewrite Hcalls, Happ, Hpools, <- !app_assoc. simpl.
      by rewrite app_nil_r.
Qed.

(** ** The pool's completion order *)

Lemma imap_unordered_perm {A} (n : nat) :
  ∀ (picks : list nat) (pending : list A),
    length pending = n → imap_unordered n picks pending ≡ₚ pending.
Proof.
  induction n as [|n IH]; intros picks pending Hlen.
  - by destruct pending.
  - simpl.
    assert (hd 0 picks `mod` length pending < length pending)%nat as Hk
      by (apply Nat.mod_upper_bound; lia).
    destruct (lookup_lt_is_Some_2 _ _ Hk) as [x Hx]. rewrite Hx.
    etrans; [|symmetry; apply (delete_Permutation pending _ x Hx)].
    constructor. apply IH.
    rewrite length_delete by eauto. lia.
Qed.

(** Every order of completion is the pool's for some scheduling choices. *)
Lemma imap_unordered_any {A} (order : list A) :
  ∀ pending : list A,
    order ≡ₚ pending →
    ∃ picks, imap_unordered (length pending) picks pending = order.
Proof.
  induction order as [|x order IH]; intros pending Hperm.
  - apply Permutation_nil_l in Hperm as <-. by exists [].
  - assert (x ∈ pending) as Hin by (rewrite <- Hperm; apply list_elem_of_here).
    apply list_elem_of_lookup in Hin as [k Hk].
    pose proof (lookup_lt_Some _ _ _ Hk) as Hlt.
    destruct (IH (delete k pending)) as [picks Hpicks].
    { apply (Permutation_cons_inv (a := x)).
      by rewrite Hperm, <- delete_Permutation. }
    exists (k :: picks).
    destruct (length pending) as [|n] eqn:Hlen; [lia|].
    simpl. rewrite Hlen, Nat.mod_small by lia. rewrite Hk.
    f_equal. rewrite <- Hpicks. f_equal.
    rewrite length_delete by eauto. lia.
Qed.

(** ** Stages that launch nothing *)

Lemma quiet_refl (s : Sys) : quiet s s.
Proof. by repeat split. Qed.

Lemma quiet_trans (s1 s2 s3 : Sys) : quiet s1 s2 → quiet s2 s3 → quiet s1 s3.
Proof.
  intros (F1 & C1 & A1 & P1) (F2 & C2 & A2 & P2).
  repeat split; congruence.
Qed.

Lemma Quiet_lift {A} (o : outcome A) : Quiet (lift o).
Proof. intros s r s' [= <- <-]. apply quiet_refl. Qed.

Lemma Quiet_ret {A} (a : A) : Quiet (mret a : M A).
Proof. intros s r s' [= <- <-]. apply quiet_refl. Qed.

Lemma Quiet_bind {A B} (m : M A) (f : A → M B) :
  Quiet m → (∀ a, Quiet (f a)) → Quiet (m ≫= f).
Proof.
  intros Hm Hf s r s'. unfold mbind, M_bind.
  destruct (m s) as [[a|e|] s1] eqn:E.
  - intros H. eapply quiet_trans; [by eapply Hm | by eapply Hf].
  - intros [= <- <-]. by eapply Hm.
  - intros [= <- <-]. by eapply Hm.
Qed.

Lemma Quiet_emit (e : event) :
  match e with Call _ | Append _ _ _ | Pool _ => False | _ => True end →
  Quiet (emit e).
Proof.
  intros He s r s' [= <- <-]. unfold quiet. simpl.
  rewrite calls_app, appends_app, pools_app.
  destruct e; try done; simpl; by rewrite !app_nil_r.
Qed.

Ltac quiet :=
  repeat first
    [ apply Quiet_lift | apply Quiet_ret | apply Quiet_emit; exact I
    | apply Quiet_bind; [|intros ?]
    | match goal with
      | |- Quiet (match ?x with _ => _ end) => destruct x
      | |- Quiet (let '(_, _) := ?x in _) => destruct x
      end ].

Lemma prepare_quiet (w : World) (config_template : string) (seed : option Z)
  (benchmark : option string) : Quiet (prepare w config_template seed benchmark).
Proof. unfold prepare, overwrite_seed. quiet. Qed.

Lemma plan_quiet (w : World) (config : Config) (runs n_cores_task : Z) :
  Quiet (plan w config runs n_cores_task).
Proof.
  unfold plan, corrections, resolve_cores, clamp_cores, fix_verbose, fix_batch.
  quiet.
Qed.

Lemma evaluate_logs_quiet (w : World) (config : Config) (sp : option string) :
  Quiet (evaluate_logs w config sp).
Proof. unfold evaluate_logs. quiet. Qed.

Lemma running_quiet (runs : Z) (s : Sys) : quiet s (running runs s).
Proof. by apply (Quiet_emit (Running runs) I s (Ok tt)). Qed.

(** [main] as the sequence of its stages. *)
Lemma main_stages (w : World) (config_template : string) (runs n_cores_task : Z)
  (seed : option Z) (benchmark : option string) (s : Sys) :
  main w config_template runs n_cores_task seed benchmark s
  = match prepare w config_template seed benchmark s with
    | (Ok config, s1) =>
        match plan w config runs n_cores_task s1 with
        | (Ok (n, config', configs), s2) =>
            match farm_out w runs n configs (running runs s2) with
            | (Ok sp, s3) => evaluate_logs w (List.last configs config') sp s3
            | (Raise e, s3) => (Raise e, s3)
            | (Hang, s3) => (Hang, s3)
            end
        | (Raise e, s2) => (Raise e, s2)
        | (Hang, s2) => (Hang, s2)
        end
    | (Raise e, s1) => (Raise e, s1)
    | (Hang, s1) => (Hang, s1)
    end.
Proof.
  unfold main, mbind, M_bind.
  destruct (prepare _ _ _ _ s) as [[config|e|] s1]; [|done|done].
  destruct (plan _ _ _ _ s1) as [[[[n config'] configs]|e|] s2]; [|done|done].
  reflexivity.
Qed.

(** ** Stages that end *)

Lemma outcome_bind_halts {A B} (o : outcome A) (f : A → outcome B) :
  o ≠ Hang → (∀ a, f a ≠ Hang) → o ≫= f ≠ Hang.
Proof. intros Ho Hf. destruct o; simpl; [apply Hf|done|done]. Qed.

Lemma getitem_halts {V} (d : gmap string V) (k : string) : Py.getitem d k ≠ Hang.
Proof. unfold Py.getitem. by destruct (d !! k). Qed.

Ltac halts :=
  repeat first
    [ apply getitem_halts
    | apply outcome_bind_halts; [|intros ?]
    | discriminate
    | match goal with
      | |- (match ?x with _ => _ end) ≠ Hang => destruct x
      end ].

Lemma get2_halts (config : Config) (sec key : string) : get2 config sec key ≠ Hang.
Proof. unfold get2. halts. Qed.

Lemma set2_halts (config : Config) (sec key : string) (v : value) :
  set2 config sec key v ≠ Hang.
Proof. unfold set2. halts. Qed.

Lemma overwrite_benchmark_halts (config : Config) (benchmark : option string) :
  overwrite_benchmark config benchmark ≠ Hang.
Proof.
  unfold overwrite_benchmark.
  apply outcome_bind_halts; [apply get2_halts|intros task_type].
  destruct benchmark as [b|]; [|done].
  destruct (Py.eq_str _ _); [apply set2_halts|].
  destruct (Py.eq_str _ _); [apply set2_halts|done].
Qed.

Lemma save_start_halts (w : World) (config : Config) : save_start w config ≠ Hang.
Proof.
  unfold save_start.
  repeat first [ apply get2_halts | apply set2_halts
               | apply outcome_bind_halts; [|intros ?] ].
Qed.

Lemma bump_seed_halts (i : nat) (config : Config) : bump_seed i config ≠ Hang.
Proof.
  unfold bump_seed.
  apply outcome_bind_halts; [apply get2_halts|intros v].
  apply outcome_bind_halts; [|intros v'; apply set2_halts].
  unfold Py.iadd, Py.float_of_int. destruct v; try done.
  apply outcome_bind_halts; [|done].
  by destruct (binary_normalize _ _ _ _ _).
Qed.

Lemma seed_plan_halts (config : Config) (runs : Z) : seed_plan config runs ≠ Hang.
Proof.
  unfold seed_plan. generalize 0%nat.
  induction (replicate (Z.to_nat runs) config) as [|c l IH]; intros i; [done|].
  simpl. apply outcome_bind_halts; [apply bump_seed_halts|intros c'].
  apply outcome_bind_halts; [apply IH|done].
Qed.

Lemma Halts_lift {A} (o : outcome A) : o ≠ Hang → Halts (lift o).
Proof. intros Ho s s' [= H _]. done. Qed.

Lemma Halts_ret {A} (a : A) : Halts (mret a : M A).
Proof. by intros s s'. Qed.

Lemma Halts_emit (e : event) : Halts (emit e).
Proof. by intros s s'. Qed.

Lemma Halts_bind {A B} (m : M A) (f : A → M B) :
  Halts m → (∀ a, Halts (f a)) → Halts (m ≫= f).
Proof.
  intros Hm Hf s s'. unfold mbind, M_bind.
  destruct (m s) as [[a|e|] s1] eqn:E; [apply Hf|done|].
  by apply Hm in E.
Qed.

Lemma overwrite_seed_halts (config : Config) (seed : option Z) :
  Halts (overwrite_seed config seed).
Proof.
  unfold overwrite_seed. destruct seed as [z|]; [|apply Halts_ret].
  apply Halts_bind; [apply Halts_lift, get2_halts|intros old].
  apply Halts_bind; [|intros _; apply Halts_lift, set2_halts].
  destruct old; first [apply Halts_ret | apply Halts_emit].
Qed.

(** Once the configuration file is read, the stages before the dispatch
    end. *)
Lemma prepare_halts (w : World) (config_template : string) (seed : option Z)
  (benchmark : option string) :
  load_config w (if String.eqb config_template "" then None
                 else Some config_template) ≠ Hang →
  Halts (prepare w config_template seed benchmark).
Proof.
  intros Hload. unfold prepare.
  apply Halts_bind; [by apply Halts_lift|intros c0].
  apply Halts_bind; [apply Halts_lift, overwrite_benchmark_halts|intros c1].
  apply Halts_bind; [apply overwrite_seed_halts|intros c2].
  apply Halts_lift, save_start_halts.
Qed.

Lemma corrections_halts (w : World) (config : Config) (runs n_cores_task : Z) :
  Halts (corrections w config runs n_cores_task).
Proof.
  unfold corrections, resolve_cores, clamp_cores, fix_verbose, fix_batch.
  repeat first
    [ apply Halts_ret | apply Halts_emit
    | apply Halts_lift; first [apply get2_halts | apply set2_halts]
    | apply Halts_bind; [|intros ?]
    | match goal with
      | |- Halts (if ?b then _ else _) => destruct b
      end ].
Qed.

Lemma plan_halts (w : World) (config : Config) (runs n_cores_task : Z) :
  Halts (plan w config runs n_cores_task).
Proof.
  unfold plan.
  apply Halts_bind; [apply corrections_halts|intros [n c]].
  apply Halts_bind; [apply Halts_lift, seed_plan_halts|intros configs].
  apply Halts_ret.
Qed.

(** ** Events a computation does not add *)

Lemma Keeps_lift {X A} (proj : event → option X) (o : outcome A) :
  Keeps proj (lift o).
Proof. by intros s r s' [= <- <-]. Qed.

Lemma Keeps_ret {X A} (proj : event → option X) (a : A) :
  Keeps proj (mret a : M A).
Proof. by intros s r s' [= <- <-]. Qed.

Lemma Keeps_bind {X A B} (proj : event → option X) (m : M A) (f : A → M B) :
  Keeps proj m → (∀ a, Keeps proj (f a)) → Keeps proj (m ≫= f).
Proof.
  intros Hm Hf s r s'. unfold mbind, M_bind.
  destruct (m s) as [[a|e|] s1] eqn:E.
  - intros H. rewrite (Hf _ _ _ _ H). by eapply Hm.
  - intros [= <- <-]. by eapply Hm.
  - intros [= <- <-]. by eapply Hm.
Qed.

Lemma Keeps_emit {X} (proj : event → option X) (e : event) :
  proj e = None → Keeps proj (emit e).
Proof.
  intros He s r s' [= <- <-]. simpl. rewrite omap_app. simpl.
  by rewrite He, app_nil_r.
Qed.

Lemma Keeps_aggregate {X} (proj : event → option X) (w : World)
  (row : Result) (path : string) :
  (∀ p h r, proj (Append p h r) = None) → Keeps proj (aggregate w row path).
Proof.
  intros Happ s r s'.
  unfold aggregate, frame, mbind, M_bind, lift, path_exists, to_csv.
  destruct (forallb _ _); [|by intros [= <- <-]].
  destruct (write_fault w path (files s !! path)) as [[e kept]|];
    intros [= <- <-]; [done|].
  simpl. rewrite omap_app. simpl. by rewrite Happ, app_nil_r.
Qed.

Lemma Keeps_consume {X} (proj : event → option X) (w : World) (runs : Z)
  (configs : list Config) :
  (∀ c, proj (Call c) = None) →
  (∀ p h r, proj (Append p h r) = None) →
  (∀ i n t, proj (Completed i n t) = None) →
  ∀ i sp, Keeps proj (consume w runs i configs sp).
Proof.
  intros Hcall Happ Hdone.
  induction configs as [|c rest IH]; intros i sp; [apply Keeps_ret|].
  simpl. apply Keeps_bind; [by apply Keeps_emit|intros _].
  apply Keeps_bind; [apply Keeps_lift|intros [r p]].
  apply Keeps_bind; [by apply Keeps_aggregate|intros _].
  apply Keeps_bind; [apply Keeps_lift|intros t].
  apply Keeps_bind; [by apply Keeps_emit|intros _].
  apply IH.
Qed.

Lemma prepare_keeps {X} (proj : event → option X) (w : World)
  (config_template : string) (seed : option Z) (benchmark : option string) :
  proj WarnSeed = None →
  Keeps proj (prepare w config_template seed benchmark).
Proof.
  intros H. unfold prepare, overwrite_seed.
  repeat first
    [ apply Keeps_lift | apply Keeps_ret | by apply Keeps_emit
    | apply Keeps_bind; [|intros ?]
    | match goal with
      | |- Keeps _ (match ?x with _ => _ end) => destruct x
      end ].
Qed.

Lemma plan_keeps {X} (proj : event → option X) (w : World) (config : Config)
  (runs n_cores_task : Z) :
  (∀ n, proj (WarnCores n) = None) → proj WarnVerbose = None →
  proj WarnBatch = None →
  Keeps proj (plan w config runs n_cores_task).
Proof.
  intros H1 H2 H3.
  unfold plan, corrections, resolve_cores, clamp_cores, fix_verbose, fix_batch.
  repeat first
    [ apply Keeps_lift | apply Keeps_ret | by apply Keeps_emit
    | apply Keeps_bind; [|intros ?]
    | match goal with
      | |- Keeps _ (match ?x with _ => _ end) => destruct x
      | |- Keeps _ (let '(_, _) := ?x in _) => destruct x
      end ].
Qed.

(** ** Every replicate once *)

Lemma filter_all {A} (f : A → bool) (l : list A) :
  (length (List.filter f l) <? length l)%nat = false → List.filter f l = l.
Proof.
  intros H%Nat.ltb_ge. induction l as [|x l IH]; [done|].
  simpl in *. pose proof (List.filter_length_le f l) as Hle.
  destruct (f x); simpl in *; [|lia].
  f_equal. apply IH. lia.
Qed.

(** [farm_out] as its loop over what the coordinator gets to take. *)
Lemma farm_out_taken (w : World) (runs n : Z) (configs : list Config) (s : Sys) :
  farm_out w runs n configs s
  = match consume w runs 0 (taken w n configs) None (dispatch_start n s) with
    | (Ok sp, s1) =>
        if (1 <? n) && (length (arrivals w configs) <? length configs)%nat
        then (Hang, s1) else (Ok sp, s1)
    | (Raise e, s1) => (Raise e, s1)
    | (Hang, s1) => (Hang, s1)
    end.
Proof.
  unfold farm_out, taken, dispatch_start.
  destruct (1 <? n); simpl.
  - unfold mbind at 1, M_bind at 1, emit at 1.
    unfold mbind at 1, M_bind at 1.
    destruct (consume _ _ _ _ _ _) as [[sp|e|] s1]; [|done|done].
    by destruct (_ <? _)%nat.
  - by destruct (consume _ _ _ _ _ _) as [[sp|e|] s1].
Qed.

(** A dispatch that ends normally has taken every replicate. *)
Lemma farm_out_consume (w : World) (runs n : Z) (configs : list Config)
  (sp : option string) (s s' : Sys) :
  farm_out w runs n configs s = (Ok sp, s') →
  consume w runs 0 (dispatch_order w n configs) None (dispatch_start n s)
  = (Ok sp, s').
Proof.
  rewrite farm_out_taken. unfold taken, dispatch_order.
  destruct (consume _ _ _ _ _ _) as [[sp1|e|] s1] eqn:Hrun; [|done|done].
  destruct (1 <? n); simpl.
  - destruct (_ <? _)%nat eqn:Hall; [done|]. intros [= <- <-].
    assert (arrivals w configs = configs) as Hsame by apply filter_all, Hall.
    by rewrite Hsame in Hrun.
  - by intros [= <- <-].
Qed.

Lemma farm_out_nil (w : World) (runs n : Z) (s : Sys) :
  farm_out w runs n [] s = (Ok None, dispatch_start n s).
Proof.
  unfold farm_out, dispatch_start. by destruct (1 <? n).
Qed.

Lemma dispatch_order_perm (w : World) (n : Z) (configs : list Config) :
  dispatch_order w n configs ≡ₚ configs.
Proof.
  unfold dispatch_order. destruct (1 <? n); [|done].
  by apply imap_unordered_perm.
Qed.

Lemma dispatch_order_serial (w : World) (n : Z) (configs : list Config) :
  n ≤ 1 → dispatch_order w n configs = configs.
Proof.
  intros H. unfold dispatch_order.
  by destruct (Z.ltb_spec 1 n); [lia|].
Qed.

Lemma dispatch_start_files (n : Z) (s : Sys) :
  files (dispatch_start n s) = files s ∧
  calls (log (dispatch_start n s)) = calls (log s) ∧
  appends (log (dispatch_start n s)) = appends (log s).
Proof.
  unfold dispatch_start. destruct (1 <? n); [|done]. simpl.
  rewrite calls_app, appends_app. simpl. by rewrite !app_nil_r.
Qed.

(** A run that ends normally went through all four stages, with at least
    one replicate. *)
Lemma main_ok_inv (w : World) (config_template : string) (runs n_cores_task : Z)
  (seed : option Z) (benchmark : option string) (s s' : Sys) :
  main w config_template runs n_cores_task seed benchmark s = (Ok tt, s') →
  ∃ config s1 n config' configs s2 path s3,
    prepare w config_template seed benchmark s = (Ok config, s1) ∧
    plan w config runs n_cores_task s1 = (Ok (n, config', configs), s2) ∧
    farm_out w runs n configs (running runs s2) = (Ok (Some path), s3) ∧
    evaluate_logs w (List.last configs config') (Some path) s3 = (Ok tt, s') ∧
    Z.of_nat (length configs) = runs.
Proof.
  rewrite main_stages.
  destruct (prepare _ _ _ _ s) as [[config|e|] s1] eqn:Hprep;
    [|discriminate|discriminate].
  destruct (plan _ _ _ _ s1) as [[[[n config'] configs]|e|] s2] eqn:Hplan;
    [|discriminate|discriminate].
  destruct (farm_out _ _ _ _ _) as [[[path|]|e|] s3] eqn:Hfarm;
    [| |discriminate|discriminate].
  - intros Heval. exists config, s1, n, config', configs, s2, path, s3.
    do 4 (split; [done|]).
    apply plan_inv in Hplan as (_ & _ & _ & _ & _ & _ & Hseed).
    apply seed_plan_length in Hseed.
    destruct configs as [|c rest]; [|simpl in *; lia].
    rewrite farm_out_nil in Hfarm. discriminate.
  - discriminate.
Qed.

(** C2. In a run that ends normally, whatever the worker count and the
    order of completion, the configurations [train_dso] was called with are
    the planned ones, each once (a permutation of the plan; the plan itself
    when there is one worker), and the results handed to the summary are
    those calls' results, one for one. *)
Theorem every_replicate_once (w : World) (config_template : string)
  (runs n_cores_task : Z) (seed : option Z) (benchmark : option string)
  (s s' : Sys) :
  main w config_template runs n_cores_task seed benchmark s = (Ok tt, s') →
  ∃ config s1 n config' configs s2 order rows,
    prepare w config_template seed benchmark s = (Ok config, s1) ∧
    plan w config runs n_cores_task s1 = (Ok (n, config', configs), s2) ∧
    Z.of_nat (length configs) = runs ∧
    order ≡ₚ configs ∧
    (n ≤ 1 → order = configs) ∧
    calls (log s') = calls (log s) ++ order ∧
    appends (log s') = appends (log s) ++ rows ∧
    Forall2 (λ c rp, train_dso w c = Ok rp) order rows.
Proof.
  intros (config & s1 & n & config' & configs & s2 & path & s3
          & Hprep & Hplan & Hfarm & Heval & Hlen)%main_ok_inv.
  exists config, s1, n, config', configs, s2, (dispatch_order w n configs).
  apply farm_out_consume in Hfarm.
  apply consume_ok in Hfarm as (rows & Hrows & Hcalls & Happ & _).
  exists rows. do 3 (split; [done|]).
  split; [apply dispatch_order_perm|].
  split; [apply dispatch_order_serial|].
  destruct (prepare_quiet _ _ _ _ _ _ _ Hprep) as (_ & C1 & A1 & _).
  destruct (plan_quiet _ _ _ _ _ _ _ Hplan) as (_ & C2 & A2 & _).
  destruct (running_quiet runs s2) as (_ & C3 & A3 & _).
  destruct (dispatch_start_files n (running runs s2)) as (_ & C4 & A4).
  destruct (evaluate_logs_quiet _ _ _ _ _ _ Heval) as (_ & C5 & A5 & _).
  split; [|split; [|done]]; congruence.
Qed.

Lemma every_replicate_once_witness :
  Sample.run4.1 = Ok tt ∧
  ∃ order,
    calls (log Sample.run4.2) = order ∧ length order = 4%nat.
Proof.
  assert (Sample.run4.1 = Ok tt) as Hok by (vm_compute; reflexivity).
  split; [exact Hok|].
  unfold Sample.run4 in *.
  destruct (main _ _ _ _ _ _ _) as [r s'] eqn:Hrun. simpl in Hok. subst r.
  destruct (every_replicate_once _ _ _ _ _ _ _ _ Hrun)
    as (config & s1 & n & config' & configs & s2 & order & rows
        & _ & _ & Hlen & Hperm & _ & Hcalls & _).
  exists order. split; [exact Hcalls|].
  apply Permutation_length in Hperm. lia.
Defined.

(** ** The summary file *)

Lemma written_some (old : list line) (rows : list Result) :
  written (Some old) rows = Some (old ++ (Data <$> rows)).
Proof.
  revert old. induction rows as [|r rows IH]; intros old.
  - by rewrite app_nil_r.
  - unfold written in *. simpl. rewrite IH.
    unfold appended. simpl. by rewrite <- app_assoc.
Qed.

Lemma written_none (row : Result) (rows : list Result) :
  written None (row :: rows)
  = Some (Header (dom row) :: Data row :: (Data <$> rows)).
Proof.
  apply (written_some [Header (dom row); Data row]).
Qed.

Lemma written_app (old : option (list line)) (rows1 rows2 : list Result) :
  written old (rows1 ++ rows2) = written (written old rows1) rows2.
Proof. apply foldl_app. Qed.

Lemma header_count_data (rows : list Result) : header_count (Data <$> rows) = 0%nat.
Proof. unfold header_count. by induction rows. Qed.

Lemma data_count_data (rows : list Result) :
  data_count (Data <$> rows) = length rows.
Proof.
  unfold data_count. induction rows as [|r rows IH]; [done|].
  simpl. f_equal. exact IH.
Qed.

Lemma sheet_counts (cols : gset string) (rows : list Result) :
  header_count (Header cols :: (Data <$> rows)) = 1%nat ∧
  data_count (Header cols :: (Data <$> rows)) = length rows.
Proof.
  split.
  - change (S (header_count (Data <$> rows)) = 1%nat).
    by rewrite header_count_data.
  - change (data_count (Data <$> rows) = length rows).
    apply data_count_data.
Qed.

Lemma header_count_app (old : list line) (rows : list Result) :
  header_count (old ++ (Data <$> rows)) = header_count old.
Proof.
  unfold header_count. rewrite List.filter_app, length_app.
  fold (header_count (Data <$> rows)). rewrite header_count_data. lia.
Qed.

Lemma data_count_app (old : list line) (rows : list Result) :
  data_count (old ++ (Data <$> rows)) = (data_count old + length rows)%nat.
Proof.
  unfold data_count. rewrite List.filter_app, length_app.
  fold (data_count (Data <$> rows)). by rewrite data_count_data.
Qed.

(** Appends that all go through have written their rows, in order, to the
    one file. *)
Lemma append_rows_inv (w : World) (path : string) (rows : list Result) :
  ∀ s s',
    append_rows w path rows s = (Ok tt, s') →
    files s' !! path = written (files s !! path) rows ∧
    ∀ p, p ≠ path → files s' !! p = files s !! p.
Proof.
  induction rows as [|row rows IH]; intros s s' H.
  - by injection H as <-.
  - change (append_rows w path (row :: rows))
      with (aggregate w row path;; append_rows w path rows) in H.
    destruct (aggregate w row path s) as [[[]|e|] s1] eqn:Hagg.
    + rewrite (bind_run _ _ _ _ _ Hagg) in H.
      apply aggregate_ok_inv in Hagg as (_ & _ & ->).
      apply IH in H as [Hfile Hother]. simpl in *. split.
      * rewrite Hfile, lookup_insert_eq. apply (written_app _ [row] rows).
      * intros p Hp. by rewrite Hother, lookup_insert_ne.
    + rewrite (bind_raise _ _ _ _ _ Hagg) in H. discriminate.
    + rewrite (bind_hang _ _ _ _ Hagg) in H. discriminate.
Qed.

(** Records that fit a one-row frame, appended to a file that can be
    written, all go through. *)
Lemma append_rows_ok (w : World) (path : string) (rows : list Result) :
  (∀ o, write_fault w path o = None) →
  Forall (λ row, frame row = Ok row) rows →
  ∀ s, ∃ s', append_rows w path rows s = (Ok tt, s').
Proof.
  intros Hfault Hrows. induction Hrows as [|row rows Hrow _ IH]; intros s.
  - by exists s.
  - pose proof (aggregate_ok w row path s Hrow (Hfault _)) as Hagg.
    destruct (IH (completed_append row path s)) as [s' Hrest].
    exists s'.
    change (append_rows w path (row :: rows))
      with (aggregate w row path;; append_rows w path rows).
    rewrite (bind_run _ _ _ _ _ Hagg). exact Hrest.
Qed.

(** The loop, when every replicate writes to the same summary file. *)
Lemma consume_sink (w : World) (runs : Z) (path : string) (configs : list Config) :
  ∀ (i : Z) (sp sp' : option string) (s s' : Sys),
    consume w runs i configs sp s = (Ok sp', s') →
    (∀ c, c ∈ configs → sink w c = path) →
    ∃ rows,
      length rows = length configs ∧
      files s' !! path = written (files s !! path) rows.
Proof.
  induction configs as [|c rest IH]; intros i sp sp' s s' H Hpath.
  - injection H as <- <-. by exists [].
  - apply consume_cons_inv in H as (r & p & E & _ & _ & H).
      apply IH in H as (rows & Hlen & Hfile);
        [|by intros c' Hc'; apply Hpath; right].
      destruct (train_dso_record _ _ _ _ E) as (_ & _ & Hp).
      fold (sink w c) in Hp. rewrite (Hpath c) in Hp by left. subst p.
      exists (r :: rows). split; [by simpl; rewrite Hlen|].
      rewrite Hfile. unfold completed. simpl. by rewrite lookup_insert_eq.
Qed.

(** What a sequence of appends makes of a summary file. *)
Lemma written_content (old : option (list line)) (rows : list Result) :
  match old, rows with
  | None, [] => written old rows = None
  | None, first :: _ =>
      written old rows = Some (Header (dom first) :: (Data <$> rows)) ∧
      header_count (Header (dom first) :: (Data <$> rows)) = 1%nat ∧
      data_count (Header (dom first) :: (Data <$> rows)) = length rows
  | Some content, _ =>
      written old rows = Some (content ++ (Data <$> rows)) ∧
      header_count (content ++ (Data <$> rows)) = header_count content ∧
      data_count (content ++ (Data <$> rows))
      = (data_count content + length rows)%nat
  end.
Proof.
  destruct old as [content|].
  - split; [apply written_some|].
    split; [apply header_count_app | apply data_count_app].
  - destruct rows as [|first rows]; [done|].
    split; [apply written_none | apply sheet_counts].
Qed.

(** The second of two runs of three replicates into the same directory
    ends normally and leaves six data rows. *)
Lemma summary_one_header_counterexample :
  Sample.run3.1 = Ok tt ∧
  Sample.rerun3.1 = Ok tt ∧
  length (calls (log Sample.rerun3.2)) = 3%nat ∧
  data_count <$> files Sample.rerun3.2 !! "./log/run/summary.csv" = Some 6%nat ∧
  header_count <$> files Sample.rerun3.2 !! "./log/run/summary.csv" = Some 1%nat.
Proof. repeat split; vm_compute; reflexivity. Qed.

(** C3, as the code has it. A sequence of appends to one summary file that
    all go through (they do when each record fits a one-row frame and the
    file can be written) adds one data row per append, after whatever the
    file held; a header is written by the first append only, and only when
    the file did not exist then: a file absent before holds one header and
    as many data rows as there were appends, a file that existed holds its
    old content followed by the new rows, with no header added; appends
    made by a later process see the file and add no header either.
    After [farm_out] has ended normally for [N] replicates that share a
    summary file, the file holds [N] data rows more than before: one header
    and [N] data rows when it was absent at the start, its old content
    followed by [N] data rows when it existed. *)
Theorem summary_one_header :
  (∀ (w : World) (path : string) (rows : list Result),
     (∀ o, write_fault w path o = None) →
     Forall (λ row, frame row = Ok row) rows →
     ∀ s, ∃ s', append_rows w path rows s = (Ok tt, s')) ∧
  (∀ (w : World) (path : string) (rows later : list Result) (s s1 s2 : Sys),
     append_rows w path rows s = (Ok tt, s1) →
     append_rows w path later (restart s1) = (Ok tt, s2) →
     match files s !! path, rows with
     | None, [] => files s1 !! path = None
     | None, first :: _ =>
         files s1 !! path = Some (Header (dom first) :: (Data <$> rows)) ∧
         files s2 !! path
         = Some (Header (dom first) :: (Data <$> rows ++ later)) ∧
         header_count (Header (dom first) :: (Data <$> rows ++ later)) = 1%nat ∧
         data_count (Header (dom first) :: (Data <$> rows ++ later))
         = length (rows ++ later)
     | Some old, _ =>
         files s1 !! path = Some (old ++ (Data <$> rows)) ∧
         files s2 !! path = Some (old ++ (Data <$> rows ++ later)) ∧
         header_count (old ++ (Data <$> rows ++ later)) = header_count old ∧
         data_count (old ++ (Data <$> rows ++ later))
         = (data_count old + length (rows ++ later))%nat
     end) ∧
  (∀ (w : World) (runs n : Z) (configs : list Config) (path : string)
     (s s' : Sys) (sp : option string),
     farm_out w runs n configs s = (Ok sp, s') →
     (∀ c, c ∈ configs → sink w c = path) →
     configs ≠ [] →
     ∃ rows,
       length rows = length configs ∧
       match files s !! path with
       | None =>
           ∃ cols,
             files s' !! path = Some (Header cols :: (Data <$> rows)) ∧
             header_count (Header cols :: (Data <$> rows)) = 1%nat ∧
             data_count (Header cols :: (Data <$> rows)) = length configs
       | Some old =>
           files s' !! path = Some (old ++ (Data <$> rows)) ∧
           header_count (old ++ (Data <$> rows)) = header_count old ∧
           data_count (old ++ (Data <$> rows))
           = (data_count old + length configs)%nat
       end).
Proof.
  split; [exact append_rows_ok|]. split.
  - intros w path rows later s s1 s2 Hrun1 Hrun2.
    apply append_rows_inv in Hrun1 as [Hf1 _].
    apply append_rows_inv in Hrun2 as [Hf2 _].
    change (files (restart s1)) with (files s1) in Hf2.
    rewrite Hf1, <- written_app in Hf2.
    pose proof (written_content (files s !! path) rows) as H1.
    pose proof (written_content (files s !! path) (rows ++ later)) as H2.
    destruct (files s !! path) as [old|].
    + destruct H1 as (H1 & _). destruct H2 as (H2 & Hh & Hd).
      rewrite H1 in Hf1. rewrite H2 in Hf2. done.
    + destruct rows as [|first rows]; [by rewrite Hf1|].
      destruct H1 as (H1 & _). destruct H2 as (H2 & Hh & Hd).
      rewrite H1 in Hf1. rewrite H2 in Hf2. done.
  - intros w runs n configs path s s' sp Hrun Hpath Hne.
    apply farm_out_consume in Hrun.
    pose proof (dispatch_order_perm w n configs) as Hperm.
    apply (consume_sink _ _ path) in Hrun as (rows & Hlen & Hfile);
      [|by intros c Hc; apply Hpath; rewrite <- Hperm].
    destruct (dispatch_start_files n s) as (Hfs & _). rewrite Hfs in Hfile.
    rewrite (Permutation_length Hperm) in Hlen.
    exists rows. split; [exact Hlen|].
    pose proof (written_content (files s !! path) rows) as H.
    destruct (files s !! path) as [old|].
    + destruct H as (H & Hh & Hd). rewrite H in Hfile. by rewrite <- Hlen.
    + destruct rows as [|row rows]; [by destruct configs|].
      destruct H as (H & Hh & Hd). rewrite H in Hfile.
      exists (dom row). by rewrite <- Hlen.
Qed.

Lemma summary_one_header_witness :
  (∃ s1 s2,
     Sample.appended2 = (Ok tt, s1) ∧
     append_rows (Sample.world "regression" (VInt 0) true [])
       "./log/run/summary.csv" [Sample.row 3] (restart s1) = (Ok tt, s2) ∧
     files s2 !! "./log/run/summary.csv"
     = Some (Header {[ "r"; "t" ]}
               :: (Data <$> [Sample.row 1; Sample.row 2; Sample.row 3]))) ∧
  Sample.farm4.1 = Ok (Some "./log/run/summary.csv") ∧
  files Sample.start !! "./log/run/summary.csv" = None ∧
  ∃ cols rows,
    files Sample.farm4.2 !! "./log/run/summary.csv"
    = Some (Header cols :: (Data <$> rows)) ∧
    length rows = 4%nat.
Proof.
  assert (Sample.farm4.1 = Ok (Some "./log/run/summary.csv")) as Hok
    by (vm_compute; reflexivity).
  assert (length Sample.plan4_configs = 4%nat) as Hlen
    by (vm_compute; reflexivity).
  destruct summary_one_header as (Happend & Hlater & Hfarm).
  split.
  { destruct (Happend (Sample.world "regression" (VInt 0) true [])
                "./log/run/summary.csv" [Sample.row 1; Sample.row 2])
      with (s := Sample.start) as [s1 H1];
      [intros o; reflexivity | repeat constructor |].
    destruct (Happend (Sample.world "regression" (VInt 0) true [])
                "./log/run/summary.csv" [Sample.row 3])
      with (s := restart s1) as [s2 H2];
      [intros o; reflexivity | repeat constructor |].
    exists s1, s2. split; [exact H1|]. split; [exact H2|].
    pose proof (Hlater _ _ _ _ _ _ _ H1 H2) as Hcontent.
    change (files Sample.start !! "./log/run/summary.csv")
      with (@None (list line)) in Hcontent.
    destruct Hcontent as (_ & Hfile & _). exact Hfile. }
  split; [exact Hok|]. split; [reflexivity|].
  unfold Sample.farm4 in *.
  destruct (farm_out _ _ _ _ _) as [r s'] eqn:Hrun. simpl in Hok. subst r.
  destruct (Hfarm _ _ _ _ "./log/run/summary.csv" _ _ _ Hrun)
    as (rows & Hrows & cols & Hfile & _).
  - intros c _. reflexivity.
  - intros Hnil. rewrite Hnil in Hlen. discriminate Hlen.
  - exists cols, rows. split; [exact Hfile|]. by rewrite Hrows.
Defined.

(** ** A replicate that fails *)













(** ** A run without a seed *)

Lemma overwrite_benchmark_experiment (config config' : Config)
  (benchmark : option string) (key : string) :
  overwrite_benchmark config benchmark = Ok config' →
  get2 config' "experiment" key = get2 config "experiment" key.
Proof.
  unfold overwrite_benchmark. intros (task_type & _ & H)%outcome_bind_ok.
  destruct benchmark as [b|]; [|by injection H as <-].
  destruct (Py.eq_str task_type "regression");
    [by eapply get2_set2_ne|].
  destruct (Py.eq_str task_type "control"); [|discriminate].
  by eapply get2_set2_ne.
Qed.

Lemma save_start_seed (w : World) (config config' : Config) :
  save_start w config = Ok config' →
  get2 config' "experiment" "seed" = get2 config "experiment" "seed".
Proof.
  unfold save_start.
  intros (seed & _ & (c1 & H1 & (c2 & H2 & H3)%outcome_bind_ok)%outcome_bind_ok)%outcome_bind_ok.
  rewrite (get2_set2_ne _ _ _ _ _ _ _ H3) by done.
  rewrite (get2_set2_ne _ _ _ _ _ _ _ H2) by done.
  by rewrite (get2_set2_ne _ _ _ _ _ _ _ H1).
Qed.

(** Without [--seed], the seed of the loaded configuration is the one the
    prepared configuration has. *)
Lemma prepare_seed (w : World) (config_template : string)
  (benchmark : option string) (config config1 : Config) (s s1 : Sys) :
  load_config w (if String.eqb config_template "" then None
                 else Some config_template) = Ok config →
  prepare w config_template None benchmark s = (Ok config1, s1) →
  get2 config1 "experiment" "seed" = get2 config "experiment" "seed".
Proof.
  intros Hload. unfold prepare. rewrite Hload.
  intros (c0 & s0 & [[= <-] ->]%lift_ok & H)%bind_ok.
  apply bind_ok in H as (c1 & s2 & [Hb ->]%lift_ok & H).
  apply bind_ok in H as (c2 & s3 & [= <- <-] & [Hs ->]%lift_ok).
  rewrite (save_start_seed _ _ _ Hs).
  by eapply overwrite_benchmark_experiment.
Qed.

Lemma corrections_seed (w : World) (config config' : Config)
  (runs n_cores_task n : Z) (s s' : Sys) :
  corrections w config runs n_cores_task s = (Ok (n, config'), s') →
  get2 config' "experiment" "seed" = get2 config "experiment" "seed".
Proof.
  intros (s1 & c1 & s2 & _ & Hv & Hb)%corrections_inv.
  apply fix_verbose_inv in Hv as (verbose & _ & Hv).
  apply fix_batch_inv in Hb as (batch & _ & Hb).
  transitivity (get2 c1 "experiment" "seed").
  - destruct (Py.ne_one batch && (1 <? n)).
    + destruct Hb as (Hset & _). by eapply get2_set2_ne.
    + by destruct Hb as [-> _].
  - destruct (Py.truthy verbose && (1 <? n)).
    + destruct Hv as (Hset & _). by eapply get2_set2_ne.
    + by destruct Hv as [-> _].
Qed.

Lemma corrections_le (w : World) (config config' : Config)
  (runs n_cores_task n : Z) (s s' : Sys) :
  corrections w config runs n_cores_task s = (Ok (n, config'), s') → n ≤ runs.
Proof.
  intros (s1 & c1 & s2 & Hres & _)%corrections_inv.
  by apply resolve_cores_le in Hres as [? _].
Qed.

(** With at least one replicate the seed plan adds 0 to [None]. *)
Lemma seed_plan_null (config : Config) (runs : Z) :
  get2 config "experiment" "seed" = Ok VNone → 1 ≤ runs →
  seed_plan config runs = Raise TypeError.
Proof.
  intros H Hruns. unfold seed_plan.
  destruct (Z.to_nat runs) as [|k] eqn:E; [lia|].
  simpl. unfold bump_seed. by rewrite H.
Qed.

Lemma seed_plan_none (config : Config) (runs : Z) :
  runs ≤ 0 → seed_plan config runs = Ok [].
Proof.
  intros H. unfold seed_plan. by replace (Z.to_nat runs) with 0%nat by lia.
Qed.

Lemma plan_run (w : World) (config config' : Config) (runs n_cores_task n : Z)
  (s s' : Sys) :
  corrections w config runs n_cores_task s = (Ok (n, config'), s') →
  plan w config runs n_cores_task s
  = match seed_plan config' runs with
    | Ok configs => (Ok (n, config', configs), s')
    | Raise e => (Raise e, s')
    | Hang => (Hang, s')
    end.
Proof.
  intros H. unfold plan. rewrite (bind_run _ _ _ _ _ H).
  unfold mbind, M_bind, lift. by destruct (seed_plan config' runs).
Qed.

(** With no replicate to plan, the seed plan is built from a configuration
    whose seed is [None] without an error, and the run ends as it does with
    the seed 0. *)
Lemma null_seed_fails_counterexample :
  get2 (Sample.config "regression" VNone) "experiment" "seed" = Ok VNone ∧
  seed_plan (Sample.config "regression" VNone) 0 = Ok [] ∧
  (main (Sample.world "regression" VNone true []) "" 0 1 None None
     Sample.start).1
  = Raise (UnboundLocalError "summary_path") ∧
  (main (Sample.world "regression" (VInt 0) true []) "" 0 1 None None
     Sample.start).1
  = Raise (UnboundLocalError "summary_path").
Proof. repeat split; vm_compute; reflexivity. Qed.

(** C8, as the code has it. A run whose loaded configuration has the seed
    [None] and that gets no [--seed] raises, whatever [runs] is, without a
    call of [train_dso], a pool or a row written. Once the stages before it
    have passed, the seed is still [None] when the seed plan is built; with
    at least one replicate the seed plan raises [TypeError] on its first
    replicate and that ends the run; with [runs <= 0] the seed plan is
    empty, the seed is not looked at, and the run ends on the unbound
    [summary_path] of line 114. *)
Theorem null_seed_fails (w : World) (config_template : string)
  (runs n_cores_task : Z) (benchmark : option string) (s : Sys)
  (config : Config) :
  load_config w (if String.eqb config_template "" then None
                 else Some config_template) = Ok config →
  get2 config "experiment" "seed" = Ok VNone →
  ∃ e s',
    main w config_template runs n_cores_task None benchmark s = (Raise e, s') ∧
    files s' = files s ∧
    calls (log s') = calls (log s) ∧
    pools (log s') = pools (log s) ∧
    appends (log s') = appends (log s) ∧
    ∀ config1 s1 n config2 s2,
      prepare w config_template None benchmark s = (Ok config1, s1) →
      corrections w config1 runs n_cores_task s1 = (Ok (n, config2), s2) →
      get2 config2 "experiment" "seed" = Ok VNone ∧
      (1 ≤ runs →
       seed_plan config2 runs = Raise TypeError ∧ e = TypeError ∧ s' = s2) ∧
      (runs ≤ 0 →
       seed_plan config2 runs = Ok [] ∧ e = UnboundLocalError "summary_path").
Proof.
  intros Hload Hnull. rewrite main_stages.
  destruct (prepare _ _ _ _ s) as [[config1|e|] s1] eqn:Hprep.
  2:{ exists e, s1. split; [done|].
      destruct (prepare_quiet _ _ _ _ _ _ _ Hprep) as (F & C & A & P).
      do 4 (split; [done|]). intros; discriminate. }
  2:{ exfalso. eapply prepare_halts; [|exact Hprep]. by rewrite Hload. }
  pose proof (prepare_seed _ _ _ _ _ _ _ Hload Hprep) as Hnull1.
  rewrite Hnull in Hnull1.
  destruct (prepare_quiet _ _ _ _ _ _ _ Hprep) as (F1 & C1 & A1 & P1).
  destruct (plan _ _ _ _ s1) as [[[[n config2] configs]|e|] s2] eqn:Hplan;
    [| |exfalso; by eapply plan_halts].
  - destruct (plan_quiet _ _ _ _ _ _ _ Hplan) as (F2 & C2 & A2 & P2).
    apply plan_corrections in Hplan as [Hcorr Hseed].
    pose proof (corrections_seed _ _ _ _ _ _ _ _ Hcorr) as Hnull2.
    rewrite Hnull1 in Hnull2.
    assert (runs ≤ 0) as Hruns.
    { destruct (Z.le_gt_cases runs 0) as [|Hpos]; [done|].
      rewrite (seed_plan_null _ _ Hnull2) in Hseed by lia. discriminate. }
    rewrite (seed_plan_none _ _ Hruns) in Hseed. injection Hseed as <-.
    pose proof (corrections_le _ _ _ _ _ _ _ _ Hcorr) as Hn.
    rewrite farm_out_nil. simpl.
    exists (UnboundLocalError "summary_path"), (dispatch_start n (running runs s2)).
    split; [done|].
    assert (dispatch_start n (running runs s2) = running runs s2) as ->.
    { unfold dispatch_start. by destruct (Z.ltb_spec 1 n); [lia|]. }
    destruct (running_quiet runs s2) as (F3 & C3 & A3 & P3).
    do 4 (split; [congruence|]).
    intros c1 s1' n' c2 s2' [= <- <-] Hcorr'.
    rewrite Hcorr in Hcorr'. injection Hcorr' as <- <- <-.
    split; [done|]. split; [lia|].
    intros _. split; [by apply seed_plan_none | done].
  - destruct (plan_quiet _ _ _ _ _ _ _ Hplan) as (F2 & C2 & A2 & P2).
    exists e, s2. split; [done|]. do 4 (split; [congruence|]).
    intros c1 s1' n' c2 s2' [= <- <-] Hcorr.
    pose proof (corrections_seed _ _ _ _ _ _ _ _ Hcorr) as Hnull2.
    rewrite Hnull1 in Hnull2. split; [done|].
    rewrite (plan_run _ _ _ _ _ _ _ _ Hcorr) in Hplan.
    split.
    + intros Hruns. pose proof (seed_plan_null _ _ Hnull2 Hruns) as Hseed.
      rewrite Hseed in Hplan. by injection Hplan as <- <-.
    + intros Hruns. rewrite (seed_plan_none _ _ Hruns) in Hplan. discriminate.
Qed.

Lemma null_seed_fails_witness :
  get2 (Sample.config "regression" VNone) "experiment" "seed" = Ok VNone ∧
  ∃ e s',
    main (Sample.world "regression" VNone true []) "" 3 1 None None Sample.start
    = (Raise e, s') ∧
    calls (log s') = [].
Proof.
  split; [reflexivity|].
  destruct (null_seed_fails (Sample.world "regression" VNone true []) "" 3 1
              None Sample.start (Sample.config "regression" VNone))
    as (e & s' & Hmain & _ & Hcalls & _); [reflexivity | reflexivity |].
  exists e, s'. split; [exact Hmain | exact Hcalls].
Defined.

(** ** What the stages leave alone *)

Lemma fix_verbose_other (config config' : Config) (n : Z) (s s' : Sys)
  (sec key : string) :
  fix_verbose config n s = (Ok config', s') →
  (sec, key) ≠ ("training", "verbose") →
  get2 config' sec key = get2 config sec key.
Proof.
  intros (verbose & _ & H)%fix_verbose_inv Hne.
  destruct (Py.truthy verbose && (1 <? n)).
  - destruct H as (Hset & _). eapply get2_set2_ne; [exact Hset | congruence].
  - by destruct H as [-> _].
Qed.

Lemma fix_batch_other (config config' : Config) (n : Z) (s s' : Sys)
  (sec key : string) :
  fix_batch config n s = (Ok config', s') →
  (sec, key) ≠ ("training", "n_cores_batch") →
  get2 config' sec key = get2 config sec key.
Proof.
  intros (batch & _ & H)%fix_batch_inv Hne.
  destruct (Py.ne_one batch && (1 <? n)).
  - destruct H as (Hset & _). eapply get2_set2_ne; [exact Hset | congruence].
  - by destruct H as [-> _].
Qed.

Lemma corrections_other (w : World) (config config' : Config)
  (runs n_cores_task n : Z) (s s' : Sys) (sec key : string) :
  corrections w config runs n_cores_task s = (Ok (n, config'), s') →
  (sec, key) ≠ ("training", "verbose") →
  (sec, key) ≠ ("training", "n_cores_batch") →
  get2 config' sec key = get2 config sec key.
Proof.
  intros (s1 & c1 & s2 & _ & Hv & Hb)%corrections_inv Hne1 Hne2.
  rewrite (fix_batch_other _ _ _ _ _ _ _ Hb Hne2).
  by apply (fix_verbose_other _ _ _ _ _ _ _ Hv).
Qed.

Lemma corrections_files (w : World) (config : Config) (runs n_cores_task : Z)
  (r : outcome (Z * Config)) (s s' : Sys) :
  corrections w config runs n_cores_task s = (r, s') → files s' = files s.
Proof.
  assert (Quiet (corrections w config runs n_cores_task)) as HQ.
  { unfold corrections, resolve_cores, clamp_cores, fix_verbose, fix_batch.
    quiet. }
  intros H. by destruct (HQ _ _ _ H).
Qed.

(** X1. The corrections of lines 81-91 assign nothing but
    [training.verbose] and [training.n_cores_batch], write no file, and
    settle on a worker count of at most [runs]. *)
Theorem corrections_footprint (w : World) (config config' : Config)
  (runs n_cores_task n : Z) (s s' : Sys) :
  corrections w config runs n_cores_task s = (Ok (n, config'), s') →
  n ≤ runs ∧
  files s' = files s ∧
  dom config' = dom config ∧
  ∀ sec key,
    (sec, key) ≠ ("training", "verbose") →
    (sec, key) ≠ ("training", "n_cores_batch") →
    get2 config' sec key = get2 config sec key.
Proof.
  intros H. split; [by eapply corrections_le|].
  split; [by eapply corrections_files|].
  split; [|by intros sec key; eapply corrections_other].
  apply corrections_inv in H as (s1 & c1 & s2 & _ & Hv & Hb).
  apply fix_verbose_inv in Hv as (verbose & _ & Hv).
  apply fix_batch_inv in Hb as (batch & _ & Hb).
  assert (dom c1 = dom config) as Hd1.
  { destruct (Py.truthy verbose && (1 <? n)); [|by destruct Hv as [-> _]].
    destruct Hv as ((d & Hd & ->)%set2_inv & _).
    apply dom_insert_lookup_L. eauto. }
  rewrite <- Hd1.
  destruct (Py.ne_one batch && (1 <? n)); [|by destruct Hb as [-> _]].
  destruct Hb as ((d & Hd & ->)%set2_inv & _).
  apply dom_insert_lookup_L. eauto.
Qed.

Lemma corrections_footprint_witness :
  ∃ config' s',
    corrections (Sample.world "regression" (VInt 0) true [])
      (Sample.config "regression" (VInt 0)) 4 2 Sample.start
    = (Ok (2, config'), s') ∧
    get2 config' "training" "hof" = Ok (VInt 100).
Proof.
  destruct (corrections (Sample.world "regression" (VInt 0) true [])
              (Sample.config "regression" (VInt 0)) 4 2 Sample.start)
    as [[[n config']|e|] s'] eqn:Hrun.
  2,3: (assert (is_ok (corrections (Sample.world "regression" (VInt 0) true [])
                         (Sample.config "regression" (VInt 0)) 4 2
                         Sample.start).1 = true) as Hok
          by (vm_compute; reflexivity);
        rewrite Hrun in Hok; discriminate).
  - assert (n = 2) as ->.
    { assert ((corrections (Sample.world "regression" (VInt 0) true [])
                 (Sample.config "regression" (VInt 0)) 4 2 Sample.start).1
              ≫= (λ r, Ok r.1) = Ok 2) as Hn by (vm_compute; reflexivity).
      rewrite Hrun in Hn. simpl in Hn. by injection Hn. }
    exists config', s'. split; [reflexivity|].
    destruct (corrections_footprint _ _ _ _ _ _ _ _ Hrun) as (_ & _ & _ & Hother).
    rewrite Hother by done. reflexivity.
Defined.

Lemma overwrite_benchmark_other (config config' : Config)
  (benchmark : option string) (sec key : string) :
  overwrite_benchmark config benchmark = Ok config' →
  (sec, key) ≠ ("task", "dataset") → (sec, key) ≠ ("task", "env") →
  get2 config' sec key = get2 config sec key.
Proof.
  unfold overwrite_benchmark. intros (task_type & _ & H)%outcome_bind_ok Hd He.
  destruct benchmark as [b|]; [|by injection H as <-].
  destruct (Py.eq_str task_type "regression");
    [eapply get2_set2_ne; [exact H | congruence]|].
  destruct (Py.eq_str task_type "control"); [|discriminate].
  eapply get2_set2_ne; [exact H | congruence].
Qed.

Lemma overwrite_seed_inv (config config' : Config) (seed : option Z) (s s' : Sys) :
  overwrite_seed config seed s = (Ok config', s') →
  files s' = files s ∧
  match seed with
  | None => config' = config
  | Some z => set2 config "experiment" "seed" (VInt z) = Ok config'
  end.
Proof.
  unfold overwrite_seed. destruct seed as [z|]; [|by intros [= <- <-]].
  intros (old & s1 & [_ ->]%lift_ok & H)%bind_ok.
  apply bind_ok in H as ([] & s2 & Hwarn & [Hset ->]%lift_ok).
  split; [|done]. destruct old; by injection Hwarn as <-.
Qed.

Lemma save_start_inv (w : World) (config config' : Config) :
  save_start w config = Ok config' →
  ∃ seed c1 c2,
    get2 config "experiment" "seed" = Ok seed ∧
    set2 config "experiment" "starting_seed" seed = Ok c1 ∧
    set2 c1 "experiment" "cmd" (VStr (String.concat " " (argv w))) = Ok c2 ∧
    set2 c2 "experiment" "timestamp" (VStr (now w)) = Ok config'.
Proof.
  unfold save_start.
  intros (seed & Hs & (c1 & H1 & (c2 & H2 & H3)%outcome_bind_ok)%outcome_bind_ok)%outcome_bind_ok.
  eauto 10.
Qed.

Lemma prepare_inv (w : World) (config_template : string) (seed : option Z)
  (benchmark : option string) (config' : Config) (s s' : Sys) :
  prepare w config_template seed benchmark s = (Ok config', s') →
  ∃ c0 c1 c2,
    load_config w (if String.eqb config_template "" then None
                   else Some config_template) = Ok c0 ∧
    overwrite_benchmark c0 benchmark = Ok c1 ∧
    overwrite_seed c1 seed s = (Ok c2, s') ∧
    save_start w c2 = Ok config'.
Proof.
  unfold prepare.
  intros (c0 & s0 & [Hload ->]%lift_ok & H)%bind_ok.
  apply bind_ok in H as (c1 & s1 & [Hb ->]%lift_ok & H).
  apply bind_ok in H as (c2 & s2 & Hseed & [Hs ->]%lift_ok).
  eauto 10.
Qed.

(** X2. Lines 51-78 assign six settings at most ([task.dataset],
    [task.env], [experiment.seed], [.starting_seed], [.cmd], [.timestamp])
    and write no file; without [--b] the task section reads as loaded, and
    without [--seed] so does the seed. *)
Theorem prepare_footprint (w : World) (config_template : string)
  (seed : option Z) (benchmark : option string) (config config' : Config)
  (s s' : Sys) :
  load_config w (if String.eqb config_template "" then None
                 else Some config_template) = Ok config →
  prepare w config_template seed benchmark s = (Ok config', s') →
  files s' = files s ∧
  (∀ sec key, (sec, key) ∉ prepared_keys →
              get2 config' sec key = get2 config sec key) ∧
  (benchmark = None →
   ∀ key, get2 config' "task" key = get2 config "task" key) ∧
  (seed = None →
   get2 config' "experiment" "seed" = get2 config "experiment" "seed").
Proof.
  intros Hload (c0 & c1 & c2 & Hload' & Hb & Hseed & Hs)%prepare_inv.
  rewrite Hload in Hload'. injection Hload' as <-.
  apply overwrite_seed_inv in Hseed as [Hfiles Hseed].
  pose proof Hs as (sd & d1 & d2 & _ & H1 & H2 & H3)%save_start_inv.
  assert (∀ sec key,
            (sec, key) ∉ [("experiment", "starting_seed"); ("experiment", "cmd");
                          ("experiment", "timestamp")] →
            get2 config' sec key = get2 c2 sec key) as Hstart.
  { intros sec key Hk.
    repeat (apply not_elem_of_cons in Hk as [? Hk]).
    rewrite (get2_set2_ne _ _ _ _ _ _ _ H3) by congruence.
    rewrite (get2_set2_ne _ _ _ _ _ _ _ H2) by congruence.
    by rewrite (get2_set2_ne _ _ _ _ _ _ _ H1) by congruence. }
  assert (∀ sec key, (sec, key) ≠ ("experiment", "seed") →
                     get2 c2 sec key = get2 c1 sec key) as Hcli.
  { intros sec key Hk. destruct seed; [|by subst].
    eapply get2_set2_ne; [exact Hseed | congruence]. }
  split; [done|]. split; [|split].
  - intros sec key Hk. unfold prepared_keys in Hk.
    repeat (apply not_elem_of_cons in Hk as [? Hk]).
    rewrite Hstart by (repeat (apply not_elem_of_cons; split; [congruence|]);
                       apply not_elem_of_nil).
    rewrite Hcli by congruence.
    by eapply overwrite_benchmark_other.
  - intros -> key.
    rewrite Hstart by (repeat (apply not_elem_of_cons; split; [congruence|]);
                       apply not_elem_of_nil).
    rewrite Hcli by congruence.
    unfold overwrite_benchmark in Hb.
    by apply outcome_bind_ok in Hb as (? & _ & [= <-]).
  - intros ->. subst c2. rewrite (save_start_seed _ _ _ Hs).
    by eapply overwrite_benchmark_experiment.
Qed.

Lemma prepare_footprint_witness :
  get2 Sample.prepared3_config "training" "hof" = Ok (VInt 100) ∧
  get2 Sample.prepared3_config "task" "dataset" = Ok (VStr "Nguyen-1").
Proof.
  assert (Sample.prepared3 = (Ok Sample.prepared3_config, Sample.prepared3.2))
    as Hprep by reflexivity.
  destruct (prepare_footprint (Sample.failing_world []) "" None None
              (Sample.config "regression" (VInt 0)) _ _ _ eq_refl Hprep)
    as (_ & Hother & Htask & _).
  split.
  - rewrite Hother; [reflexivity|].
    unfold prepared_keys.
    repeat (apply not_elem_of_cons; split; [discriminate|]).
    apply not_elem_of_nil.
  - rewrite Htask by reflexivity. reflexivity.
Defined.

(** ** The command-line seed *)

(** X3. With [--seed z] the configuration's seed becomes [z] and nothing
    else changes; the warning is printed exactly when the configuration had
    a seed other than [None]. The key is read first: a configuration
    without [experiment.seed] raises [KeyError] even though a seed was
    given. *)
Theorem cli_seed_overrides (config : Config) (z : Z) (s : Sys) :
  (∀ old, get2 config "experiment" "seed" = Ok old →
     ∃ config' s',
       overwrite_seed config (Some z) s = (Ok config', s') ∧
       files s' = files s ∧
       log s' = log s ++ match old with VNone => [] | _ => [WarnSeed] end ∧
       get2 config' "experiment" "seed" = Ok (VInt z) ∧
       ∀ sec key, (sec, key) ≠ ("experiment", "seed") →
                  get2 config' sec key = get2 config sec key) ∧
  (∀ e, get2 config "experiment" "seed" = Raise e →
     overwrite_seed config (Some z) s = (Raise e, s)).
Proof.
  split.
  - intros old Hold. pose proof Hold as (d & Hd & _)%get2_inv.
    pose proof (set2_ok config "experiment" "seed" (VInt z) d Hd) as Hset.
    eexists _, _. split.
    + unfold overwrite_seed.
      erewrite bind_run; [|unfold lift; by rewrite Hold].
      erewrite bind_run; [unfold lift; by rewrite Hset|].
      instantiate (1 := {| files := files s;
                           log := log s ++ match old with
                                           | VNone => []
                                           | _ => [WarnSeed]
                                           end |}).
      destruct old; try reflexivity.
      destruct s. simpl. by rewrite app_nil_r.
    + simpl. split; [done|]. split; [done|].
      split; [by eapply get2_set2_eq|].
      intros sec key Hne. by eapply get2_set2_ne.
  - intros e He. unfold overwrite_seed.
    erewrite bind_raise; [reflexivity|]. unfold lift. by rewrite He.
Qed.

Lemma cli_seed_overrides_witness :
  ∃ config' s',
    overwrite_seed (Sample.config "regression" VNone) (Some 7) Sample.start
    = (Ok config', s') ∧
    log s' = [] ∧
    get2 config' "experiment" "seed" = Ok (VInt 7).
Proof.
  destruct (cli_seed_overrides (Sample.config "regression" VNone) 7 Sample.start)
    as [Hok _].
  destruct (Hok VNone) as (config' & s' & Hrun & _ & Hlog & Hseed & _);
    [reflexivity|].
  exists config', s'. split; [exact Hrun|]. split; [exact Hlog | exact Hseed].
Defined.

Lemma seed_plan_int_lookup (config c : Config) (runs s : Z)
  (configs : list Config) (i : nat) :
  get2 config "experiment" "seed" = Ok (VInt s) →
  seed_plan config runs = Ok configs →
  configs !! i = Some c →
  get2 c "experiment" "seed" = Ok (VInt (s + Z.of_nat i)).
Proof.
  intros (d & Hd & Hs)%get2_inv Hplan Hi.
  unfold seed_plan in Hplan.
  rewrite (bump_seeds_replicate config d s _ _ Hd Hs) in Hplan.
  injection Hplan as <-.
  apply list_lookup_fmap_Some_1 in Hi as (k & -> & Hk).
  apply lookup_seq in Hk as [-> _]. simpl.
  eapply get2_set2_eq. by apply set2_ok.
Qed.

Lemma prepare_cli_seed (w : World) (config_template : string) (z : Z)
  (benchmark : option string) (config' : Config) (s s' : Sys) :
  prepare w config_template (Some z) benchmark s = (Ok config', s') →
  get2 config' "experiment" "seed" = Ok (VInt z).
Proof.
  intros (c0 & c1 & c2 & _ & _ & [_ Hseed]%overwrite_seed_inv & Hs)%prepare_inv.
  rewrite (save_start_seed _ _ _ Hs). by eapply get2_set2_eq.
Qed.

(** X4. With [--seed z] the replicates get the seeds [z], [z+1], ...,
    whatever seed the loaded configuration had, [None] included. *)
Theorem cli_seed_plan (w : World) (config_template : string) (z : Z)
  (benchmark : option string) (runs n_cores_task n : Z)
  (config config' : Config) (configs : list Config) (s s1 s2 : Sys) :
  prepare w config_template (Some z) benchmark s = (Ok config, s1) →
  plan w config runs n_cores_task s1 = (Ok (n, config', configs), s2) →
  length configs = Z.to_nat runs ∧
  ∀ (i : nat) (c : Config),
    configs !! i = Some c →
    get2 c "experiment" "seed" = Ok (VInt (z + Z.of_nat i)).
Proof.
  intros Hprep [Hcorr Hplan]%plan_corrections.
  split; [by eapply seed_plan_length|].
  intros i c Hi. eapply seed_plan_int_lookup; [|exact Hplan|exact Hi].
  rewrite (corrections_seed _ _ _ _ _ _ _ _ Hcorr).
  by eapply prepare_cli_seed.
Qed.

(** X5. Every replicate's configuration carries the same [starting_seed]
    (the seed before any offset), the same [cmd] (the joined [sys.argv])
    and the same [timestamp]. *)
Theorem shared_experiment_identity (w : World) (config_template : string)
  (seed : option Z) (benchmark : option string) (runs n_cores_task n : Z)
  (config config' : Config) (configs : list Config) (s s1 s2 : Sys) :
  prepare w config_template seed benchmark s = (Ok config, s1) →
  plan w config runs n_cores_task s1 = (Ok (n, config', configs), s2) →
  ∀ c, c ∈ configs →
    get2 c "experiment" "starting_seed" = get2 config "experiment" "seed" ∧
    get2 c "experiment" "cmd" = Ok (VStr (String.concat " " (argv w))) ∧
    get2 c "experiment" "timestamp" = Ok (VStr (now w)).
Proof.
  intros (c0 & c1 & c2 & _ & _ & _ & Hs)%prepare_inv
         [Hcorr Hplan]%plan_corrections c Hc.
  destruct (seed_plan_members _ _ _ Hplan c Hc) as [v Hv].
  pose proof (save_start_seed _ _ _ Hs) as Hseed.
  apply save_start_inv in Hs as (sd & d1 & d2 & Hsd & H1 & H2 & H3).
  assert (∀ key, key ≠ "seed" →
                 get2 c "experiment" key = get2 config "experiment" key) as Hc'.
  { intros key Hk. rewrite (get2_set2_ne _ _ _ _ _ _ _ Hv) by congruence.
    by rewrite (corrections_other _ _ _ _ _ _ _ _ _ _ Hcorr). }
  rewrite !Hc' by done. split; [|split].
  - rewrite (get2_set2_ne _ _ _ _ _ _ _ H3) by done.
    rewrite (get2_set2_ne _ _ _ _ _ _ _ H2) by done.
    rewrite (get2_set2_eq _ _ _ _ _ H1). by rewrite Hseed.
  - rewrite (get2_set2_ne _ _ _ _ _ _ _ H3) by done.
    by rewrite (get2_set2_eq _ _ _ _ _ H2).
  - by rewrite (get2_set2_eq _ _ _ _ _ H3).
Qed.

(** X6. Over an integer seed the replicates' seeds are pairwise different,
    so no two replicates share a configuration. *)
Theorem seeds_distinct (config : Config) (runs s : Z) (configs : list Config) :
  get2 config "experiment" "seed" = Ok (VInt s) →
  seed_plan config runs = Ok configs →
  NoDup ((λ c, get2 c "experiment" "seed") <$> configs) ∧ NoDup configs.
Proof.
  intros Hseed Hplan.
  assert (NoDup ((λ c, get2 c "experiment" "seed") <$> configs)) as Hnd.
  { assert ((λ c, get2 c "experiment" "seed") <$> configs
            = (λ k : nat, Ok (VInt (s + Z.of_nat k))) <$> seq 0 (length configs))
      as ->.
    { apply list_eq. intros i. rewrite !list_lookup_fmap.
      destruct (configs !! i) as [c|] eqn:Hi; simpl.
      - rewrite (seed_plan_int_lookup _ _ _ _ _ _ Hseed Hplan Hi).
        rewrite lookup_seq_lt by (by eapply lookup_lt_Some). done.
      - apply lookup_ge_None in Hi. by rewrite lookup_seq_ge. }
    apply NoDup_fmap_2; [|apply NoDup_seq].
    intros j k [= H]. lia. }
  split; [exact Hnd|]. by eapply NoDup_fmap_1.
Qed.

Lemma cli_seed_plan_witness :
  Sample.cli_prepared = (Ok Sample.cli_config, Sample.cli_prepared.2) ∧
  Sample.cli_plan
  = (Ok (1, Sample.cli_plan_config, Sample.cli_plan_configs), Sample.cli_plan.2) ∧
  (λ c, get2 c "experiment" "seed") <$> Sample.cli_plan_configs !! 2%nat
  = Some (Ok (VInt 9)).
Proof.
  assert (Sample.cli_prepared = (Ok Sample.cli_config, Sample.cli_prepared.2))
    as Hprep by reflexivity.
  assert (Sample.cli_plan
          = (Ok (1, Sample.cli_plan_config, Sample.cli_plan_configs),
             Sample.cli_plan.2)) as Hplan by reflexivity.
  split; [exact Hprep|]. split; [exact Hplan|].
  destruct (cli_seed_plan (Sample.world "regression" VNone true []) "" 7 None
              3 1 _ _ _ _ _ _ _ Hprep Hplan) as [Hlen Hseeds].
  destruct (Sample.cli_plan_configs !! 2%nat) as [c|] eqn:Hc.
  - simpl. f_equal. exact (Hseeds 2%nat c Hc).
  - apply lookup_ge_None in Hc. rewrite Hlen in Hc. simpl in Hc. lia.
Defined.

Lemma shared_experiment_identity_witness :
  Sample.cli_prepared = (Ok Sample.cli_config, Sample.cli_prepared.2) ∧
  (λ c, get2 c "experiment" "starting_seed") <$> Sample.cli_plan_configs !! 2%nat
  = Some (Ok (VInt 7)) ∧
  (λ c, get2 c "experiment" "timestamp") <$> Sample.cli_plan_configs !! 2%nat
  = Some (Ok (VStr "2026-01-01-000000")).
Proof.
  assert (Sample.cli_prepared = (Ok Sample.cli_config, Sample.cli_prepared.2))
    as Hprep by reflexivity.
  assert (Sample.cli_plan
          = (Ok (1, Sample.cli_plan_config, Sample.cli_plan_configs),
             Sample.cli_plan.2)) as Hplan by reflexivity.
  assert (length Sample.cli_plan_configs = 3%nat) as Hlen
    by (vm_compute; reflexivity).
  split; [exact Hprep|].
  destruct (Sample.cli_plan_configs !! 2%nat) as [c|] eqn:Hc.
  - destruct (shared_experiment_identity
                (Sample.world "regression" VNone true []) "" (Some 7) None 3 1
                _ _ _ _ _ _ _ Hprep Hplan c)
      as (Hstart & _ & Htime).
    + apply list_elem_of_lookup. by exists 2%nat.
    + simpl. split; f_equal; [exact Hstart | exact Htime].
  - apply lookup_ge_None in Hc. rewrite Hlen in Hc. lia.
Defined.

Lemma seeds_distinct_witness :
  get2 (Sample.config "regression" (VInt 100)) "experiment" "seed"
  = Ok (VInt 100) ∧
  ∃ configs,
    seed_plan (Sample.config "regression" (VInt 100)) 3 = Ok configs ∧
    NoDup configs.
Proof.
  split; [reflexivity|].
  destruct (seed_plan (Sample.config "regression" (VInt 100)) 3)
    as [configs|e|] eqn:Hplan.
  2,3: (assert (is_ok (seed_plan (Sample.config "regression" (VInt 100)) 3)
                = true) as Hok by (vm_compute; reflexivity);
        rewrite Hplan in Hok; discriminate).
  - exists configs. split; [reflexivity|].
    assert (get2 (Sample.config "regression" (VInt 100)) "experiment" "seed"
            = Ok (VInt 100)) as Hseed by reflexivity.
    by destruct (seeds_distinct _ 3 100 configs Hseed Hplan).
Defined.

(** ** The environment of a control task *)

(** X7. [train_dso] makes the gym environment only for a control task
    whose [n_cores_batch] exceeds one: any other task type, and a control
    task with an integer [n_cores_batch] of at most one, goes straight to
    training; a control task with more cores gets [gym.make] on
    [task.env], and a failure there ends [train_dso] before the model is
    trained; a control task whose [n_cores_batch] is [None] raises
    [TypeError] on the comparison. *)
Theorem gym_only_for_nested_control (w : World) (config : Config)
  (task_type : value) :
  get2 config "task" "task_type" = Ok task_type →
  (task_type ≠ VStr "control" → precondition w config = Ok tt) ∧
  (task_type = VStr "control" →
   (∀ z, get2 config "training" "n_cores_batch" = Ok (VInt z) → z ≤ 1 →
         precondition w config = Ok tt) ∧
   (∀ z env, get2 config "training" "n_cores_batch" = Ok (VInt z) → 1 < z →
             get2 config "task" "env" = Ok env →
             precondition w config = gym_make w env ∧
             ∀ e, gym_make w env = Raise e → train_dso w config = Raise e) ∧
   (get2 config "training" "n_cores_batch" = Ok VNone →
    train_dso w config = Raise TypeError)).
Proof.
  intros Htt. split.
  - intros Hne. unfold precondition. rewrite Htt. simpl.
    by rewrite (eq_str_ne _ _ Hne).
  - intros ->. split; [|split].
    + intros z Hz Hle. unfold precondition. rewrite Htt, Hz. simpl.
      by destruct (Z.ltb_spec 1 z); [lia|].
    + intros z env Hz Hlt Henv.
      assert (precondition w config = gym_make w env) as Hpre.
      { unfold precondition. rewrite Htt, Hz. simpl.
        destruct (Z.ltb_spec 1 z); [|lia]. by rewrite Henv. }
      split; [exact Hpre|].
      intros e He. unfold train_dso. by rewrite Hpre, He.
    + intros Hz. unfold train_dso, precondition. by rewrite Htt, Hz.
Qed.

Lemma gym_only_for_nested_control_witness :
  get2 (Sample.config "control" (VInt 0)) "task" "task_type"
  = Ok (VStr "control") ∧
  train_dso Sample.gymless_world (Sample.config "control" (VInt 0))
  = Raise (External "gym").
Proof.
  split; [reflexivity|].
  destruct (gym_only_for_nested_control Sample.gymless_world
              (Sample.config "control" (VInt 0)) (VStr "control"))
    as [_ Hcontrol]; [reflexivity|].
  destruct Hcontrol as (_ & Hgym & _); [reflexivity|].
  destruct (Hgym 2 (VStr "Pendulum-v0")) as [_ Hfail];
    [reflexivity | lia | reflexivity |].
  apply Hfail. reflexivity.
Defined.

Lemma SFeqb_not_lt (f : spec_float) (m : positive) (e : Z) :
  SFeqb f (S754_finite false m e) = true →
  SFltb (S754_finite false m e) f = false.
Proof.
  unfold SFeqb, SFltb. intros H.
  destruct f as [s|s| |s m' e']; simpl in *; try discriminate H.
  - by destruct s.
  - destruct s; [discriminate H|].
    destruct (Z.compare_spec e' e) as [->| |]; try discriminate H.
    rewrite Z.compare_refl.
    change (Pos.compare_cont Eq m' m) with (Pos.compare m' m) in H.
    destruct (Pos.compare_spec m' m) as [->| |]; try discriminate H.
    change (Pos.compare_cont Eq m m) with (Pos.compare m m).
    by rewrite Pos.compare_refl.
Qed.

Lemma eq_one_not_gt (f : spec_float) :
  SFeqb f Py.one = true → SFltb Py.one f = false.
Proof.
  change Py.one with (S754_finite false 4503599627370496 (-52)).
  apply SFeqb_not_lt.
Qed.

(** A value equal to 1 is not greater than 1. *)
Lemma ne_one_gt_one (v : value) :
  Py.ne_one v = false → Py.gt_one v = Ok false.
Proof.
  destruct v as [|b|z|f|s|l|d]; try discriminate; simpl.
  - done.
  - intros H. apply negb_false_iff, Z.eqb_eq in H as ->. done.
  - intros H%negb_false_iff. by rewrite eq_one_not_gt.
Qed.

Lemma corrections_batch (w : World) (config config' : Config)
  (runs n_cores_task n : Z) (s s' : Sys) :
  corrections w config runs n_cores_task s = (Ok (n, config'), s') →
  1 < n →
  ∃ batch, get2 config' "training" "n_cores_batch" = Ok batch ∧
           Py.ne_one batch = false.
Proof.
  intros (s1 & c1 & s2 & _ & _ & Hb)%corrections_inv Hn.
  apply fix_batch_inv in Hb as (batch & Hbatch & Hb).
  assert ((1 <? n) = true) as Hlt by (apply Z.ltb_lt; lia).
  rewrite Hlt, andb_true_r in Hb.
  destruct (Py.ne_one batch) eqn:Hone.
  - destruct Hb as (Hset & _). exists (VInt 1).
    split; [by eapply get2_set2_eq | done].
  - destruct Hb as [-> _]. eauto.
Qed.

(** X8. In a run with more than one worker no replicate makes a gym
    environment: the corrections have set [n_cores_batch] to 1, so for
    every planned configuration lines 23-26 fall through, whatever the
    task type and whatever [gym.make] would do. *)
Theorem parallel_run_skips_gym (w : World) (config config' : Config)
  (runs n_cores_task n : Z) (configs : list Config) (s s' : Sys) :
  plan w config runs n_cores_task s = (Ok (n, config', configs), s') →
  1 < n →
  ∀ c task_type,
    c ∈ configs →
    get2 c "task" "task_type" = Ok task_type →
    precondition w c = Ok tt ∧
    train_dso w c
    = (result ← model_train w c;
       result ← strip result (elapsed w c);
       Ok (result, sink w c)).
Proof.
  intros [Hcorr Hplan]%plan_corrections Hn c task_type Hc Htt.
  destruct (corrections_batch _ _ _ _ _ _ _ _ Hcorr Hn) as (batch & Hbatch & Hone).
  destruct (seed_plan_members _ _ _ Hplan c Hc) as [v Hv].
  assert (precondition w c = Ok tt) as Hpre.
  { unfold precondition. rewrite Htt. simpl.
    destruct (Py.eq_str task_type "control"); [|done].
    rewrite (get2_set2_ne _ _ _ _ "training" "n_cores_batch" _ Hv) by done.
    rewrite Hbatch. simpl. by rewrite (ne_one_gt_one _ Hone). }
  split; [exact Hpre|]. unfold train_dso. by rewrite Hpre.
Qed.

Lemma parallel_run_skips_gym_witness :
  Sample.control_plan
  = (Ok (2, Sample.control_plan_config, Sample.control_plan_configs),
     Sample.control_plan.2) ∧
  Sample.control_plan_configs !! 0%nat = Some Sample.control_first ∧
  get2 Sample.control_first "task" "task_type" = Ok (VStr "control") ∧
  precondition Sample.gymless_world Sample.control_first = Ok tt.
Proof.
  assert (Sample.control_plan
          = (Ok (2, Sample.control_plan_config, Sample.control_plan_configs),
             Sample.control_plan.2)) as Hplan by reflexivity.
  assert (Sample.control_plan_configs !! 0%nat = Some Sample.control_first)
    as Hfirst by reflexivity.
  assert (get2 Sample.control_first "task" "task_type" = Ok (VStr "control"))
    as Htt by reflexivity.
  split; [exact Hplan|]. split; [exact Hfirst|]. split; [exact Htt|].
  destruct (parallel_run_skips_gym Sample.gymless_world _ _ 4 2 _ _ _ _ Hplan)
    with (c := Sample.control_first) (task_type := VStr "control") as [Hpre _];
    [lia | by apply list_elem_of_lookup; exists 0%nat | exact Htt | exact Hpre].
Defined.

(** ** The loop, in more detail *)

(** The variable [summary_path] after the loop: the sink of the last
    replicate taken, if any. *)
Lemma consume_path (w : World) (runs : Z) (configs : list Config) :
  ∀ (i : Z) (sp sp' : option string) (s s' : Sys),
    consume w runs i configs sp s = (Ok sp', s') →
    sp' = match last configs with Some c => Some (sink w c) | None => sp end.
Proof.
  induction configs as [|c rest IH]; intros i sp sp' s s' H.
  - by injection H as <- <-.
  - apply consume_cons_inv in H as (r & p & E & _ & _ & H).
      apply IH in H. rewrite H.
      destruct (train_dso_record _ _ _ _ E) as (_ & _ & ->).
      rewrite last_cons. by destruct (last rest).
Qed.

(** The rows of a shared sink, replicate by replicate. *)
Lemma consume_sink_rows (w : World) (runs : Z) (path : string)
  (configs : list Config) :
  ∀ (i : Z) (sp sp' : option string) (s s' : Sys),
    consume w runs i configs sp s = (Ok sp', s') →
    (∀ c, c ∈ configs → sink w c = path) →
    ∃ rows,
      Forall2 (λ c row, train_dso w c = Ok (row, path)) configs rows ∧
      files s' !! path = written (files s !! path) rows.
Proof.
  induction configs as [|c rest IH]; intros i sp sp' s s' H Hpath.
  - injection H as <- <-. exists []. split; [constructor | done].
  - apply consume_cons_inv in H as (r & p & E & _ & _ & H).
    apply IH in H as (rows & Hrows & Hfile);
      [|by intros c' Hc'; apply Hpath; right].
    destruct (train_dso_record _ _ _ _ E) as (_ & _ & Hp).
    fold (sink w c) in Hp. rewrite (Hpath c) in Hp by left. subst p.
    exists (r :: rows). split; [by constructor|].
    rewrite Hfile. unfold completed. simpl. by rewrite lookup_insert_eq.
Qed.

(** The progress lines of the loop count on from [i]. *)
Lemma consume_progress (w : World) (runs : Z) (configs : list Config) :
  ∀ (i : Z) (sp sp' : option string) (s s' : Sys),
    consume w runs i configs sp s = (Ok sp', s') →
    progress (log s')
    = progress (log s)
      ++ imap (λ k c, (i + Z.of_nat k + 1, runs, VFloat (elapsed w c))) configs.
Proof.
  induction configs as [|c rest IH]; intros i sp sp' s s' H.
  - injection H as <- <-. by rewrite app_nil_r.
  - apply consume_cons_inv in H as (r & p & E & _ & _ & H).
      apply IH in H. rewrite H. unfold completed, progress. simpl.
      rewrite omap_app. simpl. rewrite <- app_assoc. simpl.
      f_equal. f_equal; [by rewrite Z.add_0_r|].
      apply imap_ext. intros k c' _. simpl. do 2 f_equal. lia.
Qed.

(** ** The summary, row by row *)

(** X9. In a run that shares one summary file, absent at the start, the
    data rows are the replicates' results in the order of dispatch: the
    completion order of the pool, and with one worker the order of the
    plan, that is of the seeds. *)
Theorem rows_follow_dispatch (w : World) (runs n : Z) (configs : list Config)
  (path : string) (s s' : Sys) (sp : option string) :
  farm_out w runs n configs s = (Ok sp, s') →
  (∀ c, c ∈ configs → sink w c = path) →
  files s !! path = None →
  configs ≠ [] →
  ∃ first rest,
    Forall2 (λ c row, train_dso w c = Ok (row, path))
      (dispatch_order w n configs) (first :: rest) ∧
    (n ≤ 1 →
     Forall2 (λ c row, train_dso w c = Ok (row, path)) configs (first :: rest)) ∧
    files s' !! path
    = Some (Header (dom first) :: Data first :: (Data <$> rest)).
Proof.
  intros Hrun Hpath Hnew Hne.
  apply farm_out_consume in Hrun.
  pose proof (dispatch_order_perm w n configs) as Hperm.
  apply (consume_sink_rows _ _ path) in Hrun as (rows & Hrows & Hfile);
    [|by intros c Hc; apply Hpath; rewrite <- Hperm].
  destruct (dispatch_start_files n s) as (Hfs & _). rewrite Hfs, Hnew in Hfile.
  destruct rows as [|first rest].
  { apply Forall2_length in Hrows. apply Permutation_length in Hperm.
    destruct configs; [done | simpl in *; lia]. }
  exists first, rest. split; [exact Hrows|].
  split; [by intros Hn; rewrite <- (dispatch_order_serial w n configs Hn)|].
  by rewrite Hfile, written_none.
Qed.

Lemma rows_follow_dispatch_witness :
  Sample.farm4.1 = Ok (Some "./log/run/summary.csv") ∧
  ∃ first rest,
    files Sample.farm4.2 !! "./log/run/summary.csv"
    = Some (Header (dom first) :: Data first :: (Data <$> rest)) ∧
    length rest = 3%nat.
Proof.
  assert (Sample.farm4.1 = Ok (Some "./log/run/summary.csv")) as Hok
    by (vm_compute; reflexivity).
  assert (length Sample.plan4_configs = 4%nat) as Hlen
    by (vm_compute; reflexivity).
  split; [exact Hok|].
  unfold Sample.farm4 in *.
  destruct (farm_out _ _ _ _ _) as [r s'] eqn:Hrun. simpl in Hok. subst r.
  destruct (rows_follow_dispatch _ _ _ _ "./log/run/summary.csv" _ _ _ Hrun)
    as (first & rest & Hrows & _ & Hfile).
  - intros c _. reflexivity.
  - reflexivity.
  - intros Hnil. rewrite Hnil in Hlen. discriminate Hlen.
  - exists first, rest. split; [exact Hfile|].
    apply Forall2_length in Hrows.
    rewrite (Permutation_length (dispatch_order_perm _ _ _)), Hlen in Hrows.
    simpl in Hrows. lia.
Defined.

(** X10. The summary never gets the program: in a run that shares one
    summary file, absent at the start, the header has the column "t" and
    no column "program", and every data row has a "t" entry and no
    "program" entry. *)
Theorem summary_columns (w : World) (runs n : Z) (configs : list Config)
  (path : string) (s s' : Sys) (sp : option string) :
  farm_out w runs n configs s = (Ok sp, s') →
  (∀ c, c ∈ configs → sink w c = path) →
  files s !! path = None →
  configs ≠ [] →
  ∃ cols rows,
    files s' !! path = Some (Header cols :: (Data <$> rows)) ∧
    "t" ∈ cols ∧ ("program" ∉ cols) ∧
    Forall (λ row, is_Some (row !! "t") ∧ row !! "program" = None) rows.
Proof.
  intros Hrun Hpath Hnew Hne.
  apply farm_out_consume in Hrun.
  pose proof (dispatch_order_perm w n configs) as Hperm.
  apply (consume_sink_rows _ _ path) in Hrun as (rows & Hrows & Hfile);
    [|by intros c Hc; apply Hpath; rewrite <- Hperm].
  destruct (dispatch_start_files n s) as (Hfs & _). rewrite Hfs, Hnew in Hfile.
  assert (Forall (λ row, is_Some (row !! "t") ∧ row !! "program" = None) rows)
    as Hall.
  { clear Hfile Hperm.
    induction Hrows as [|c row cs rows Hc _ IH]; constructor.
    - destruct (train_dso_record _ _ _ _ Hc) as (Ht & Hp & _). eauto.
    - exact IH. }
  destruct rows as [|first rest].
  { apply Forall2_length in Hrows. apply Permutation_length in Hperm.
    destruct configs; [done | simpl in *; lia]. }
  exists (dom first), (first :: rest).
  split; [by rewrite Hfile, written_none|].
  apply Forall_cons in Hall as [[Ht Hp] Hall'].
  split; [by apply elem_of_dom|].
  split; [by apply not_elem_of_dom|].
  by constructor.
Qed.

Lemma summary_columns_witness :
  Sample.farm4.1 = Ok (Some "./log/run/summary.csv") ∧
  ∃ cols rows,
    files Sample.farm4.2 !! "./log/run/summary.csv"
    = Some (Header cols :: (Data <$> rows)) ∧
    "program" ∉ cols.
Proof.
  assert (Sample.farm4.1 = Ok (Some "./log/run/summary.csv")) as Hok
    by (vm_compute; reflexivity).
  assert (length Sample.plan4_configs = 4%nat) as Hlen
    by (vm_compute; reflexivity).
  split; [exact Hok|].
  unfold Sample.farm4 in *.
  destruct (farm_out _ _ _ _ _) as [r s'] eqn:Hrun. simpl in Hok. subst r.
  destruct (summary_columns _ _ _ _ "./log/run/summary.csv" _ _ _ Hrun)
    as (cols & rows & Hfile & _ & Hprog & _).
  - intros c _. reflexivity.
  - reflexivity.
  - intros Hnil. rewrite Hnil in Hlen. discriminate Hlen.
  - exists cols, rows. split; [exact Hfile | exact Hprog].
Defined.

(** X11. The progress lines of a run count the completions 1, 2, ... in the
    order of dispatch, each with [runs] as the total and the replicate's
    own duration. *)
Theorem progress_numbering (w : World) (runs n : Z) (configs : list Config)
  (s s' : Sys) (sp : option string) :
  farm_out w runs n configs s = (Ok sp, s') →
  progress (log s')
  = progress (log s)
    ++ imap (λ k c, (Z.of_nat k + 1, runs, VFloat (elapsed w c)))
         (dispatch_order w n configs).
Proof.
  intros H%farm_out_consume%consume_progress.
  rewrite H. f_equal.
  unfold dispatch_start. destruct (1 <? n); [|done].
  unfold progress. simpl. rewrite omap_app. simpl. by rewrite app_nil_r.
Qed.

Lemma progress_numbering_witness :
  Sample.farm4.1 = Ok (Some "./log/run/summary.csv") ∧
  (λ p, p.1) <$> progress (log Sample.farm4.2) = [(1, 4); (2, 4); (3, 4); (4, 4)].
Proof.
  assert (Sample.farm4.1 = Ok (Some "./log/run/summary.csv")) as Hok
    by (vm_compute; reflexivity).
  assert (length Sample.plan4_configs = 4%nat) as Hlen
    by (vm_compute; reflexivity).
  split; [exact Hok|].
  unfold Sample.farm4 in *.
  destruct (farm_out _ _ _ _ _) as [r s'] eqn:Hrun. simpl in Hok. subst r.
  simpl. rewrite (progress_numbering _ _ _ _ _ _ _ Hrun). simpl.
  pose proof (Permutation_length
                (dispatch_order_perm
                   (Sample.world "regression" (VInt 0) true [1; 0; 1; 0]%nat)
                   2 Sample.plan4_configs)) as Hl.
  rewrite Hlen in Hl.
  destruct (dispatch_order _ _ _) as [|c1 [|c2 [|c3 [|c4 [|c5 l]]]]];
    try discriminate Hl.
  reflexivity.
Defined.

(** ** The ends of a run *)

Lemma evaluate_logs_ok (w : World) (config : Config) (path : string)
  (s s' : Sys) :
  evaluate_logs w config (Some path) s = (Ok tt, s') →
  files s' = files s ∧ log s' = log s ++ [Analyze (path_dirname w path)].
Proof.
  unfold evaluate_logs.
  intros ([] & s1 & [_ ->]%lift_ok & H)%bind_ok.
  apply bind_ok in H as (show_count & s2 & [_ ->]%lift_ok & H).
  apply bind_ok in H as (hof & s3 & [_ ->]%lift_ok & H).
  apply bind_ok in H as (show_hof & s4 & [_ ->]%lift_ok & H).
  apply bind_ok in H as (show_pf & s5 & [_ ->]%lift_ok & H).
  apply bind_ok in H as (save_plots & s6 & [_ ->]%lift_ok & H).
  apply bind_ok in H as ([] & s7 & [= <-] & [_ ->]%lift_ok).
  done.
Qed.

(** X12. A run with [runs <= 0] cannot end normally: once the stages
    before the dispatch have passed, nothing is dispatched and the run
    raises [UnboundLocalError] for [summary_path] at line 114, after the
    line "Running DSO for ... seeds" has been printed. *)
Theorem no_replicates_unbound_path (w : World) (config_template : string)
  (runs n_cores_task : Z) (seed : option Z) (benchmark : option string)
  (s : Sys) :
  runs ≤ 0 →
  (∀ s', main w config_template runs n_cores_task seed benchmark s
         ≠ (Ok tt, s')) ∧
  ∀ config s1 n config' s2,
    prepare w config_template seed benchmark s = (Ok config, s1) →
    corrections w config runs n_cores_task s1 = (Ok (n, config'), s2) →
    main w config_template runs n_cores_task seed benchmark s
    = (Raise (UnboundLocalError "summary_path"), running runs s2).
Proof.
  intros Hruns. split.
  - intros s' (config & s1 & n & config' & configs & s2 & path & s3
               & _ & _ & Hfarm & _ & Hlen)%main_ok_inv.
    destruct configs as [|c rest]; [|simpl in Hlen; lia].
    rewrite farm_out_nil in Hfarm. discriminate.
  - intros config s1 n config' s2 Hprep Hcorr.
    rewrite main_stages, Hprep, (plan_run _ _ _ _ _ _ _ _ Hcorr).
    rewrite (seed_plan_none _ _ Hruns).
    rewrite farm_out_nil. simpl.
    pose proof (corrections_le _ _ _ _ _ _ _ _ Hcorr) as Hn.
    unfold dispatch_start. by destruct (Z.ltb_spec 1 n); [lia|].
Qed.

Lemma no_replicates_unbound_path_witness :
  main (Sample.world "regression" (VInt 0) true []) "" 0 1 None None Sample.start
  = (Raise (UnboundLocalError "summary_path"),
     {| files := ∅; log := [WarnCores 0; Running 0] |}).
Proof.
  assert (prepare (Sample.world "regression" (VInt 0) true []) "" None None
            Sample.start
          = (Ok Sample.prepared3_config, Sample.start)) as Hprep by reflexivity.
  assert (corrections (Sample.world "regression" (VInt 0) true [])
            Sample.prepared3_config 0 1 Sample.start
          = (Ok (0, Sample.prepared3_config),
             {| files := ∅; log := [WarnCores 0] |})) as Hcorr by reflexivity.
  destruct (no_replicates_unbound_path
              (Sample.world "regression" (VInt 0) true []) "" 0 1 None None
              Sample.start) as [_ Hmain]; [lia|].
  exact (Hmain _ _ _ _ _ Hprep Hcorr).
Defined.

(** X13. A run that ends normally has run the analysis once, as its last
    act, on the directory of the summary of the replicate dispatched
    last. *)
Theorem analysis_once_at_the_end (w : World) (config_template : string)
  (runs n_cores_task : Z) (seed : option Z) (benchmark : option string)
  (s s' : Sys) :
  main w config_template runs n_cores_task seed benchmark s = (Ok tt, s') →
  ∃ config s1 n config' configs s2 c before,
    prepare w config_template seed benchmark s = (Ok config, s1) ∧
    plan w config runs n_cores_task s1 = (Ok (n, config', configs), s2) ∧
    last (dispatch_order w n configs) = Some c ∧
    log s' = before ++ [Analyze (path_dirname w (sink w c))] ∧
    analyses (log s')
    = analyses (log s) ++ [path_dirname w (sink w c)].
Proof.
  intros (config & s1 & n & config' & configs & s2 & path & s3
          & Hprep & Hplan & Hfarm & Heval & Hlen)%main_ok_inv.
  apply farm_out_consume in Hfarm.
  pose proof (consume_path _ _ _ _ _ _ _ _ Hfarm) as Hpath.
  destruct (last (dispatch_order w n configs)) as [c|] eqn:Hlast;
    [|discriminate Hpath].
  injection Hpath as ->.
  apply evaluate_logs_ok in Heval as [_ Hlog].
  exists config, s1, n, config', configs, s2, c, (log s3).
  do 3 (split; [done|]). split; [exact Hlog|].
  rewrite Hlog. unfold analyses. rewrite omap_app. simpl. f_equal.
  pose proof (Keeps_consume
                (λ e, match e with Analyze d => Some d | _ => None end)
                w runs (dispatch_order w n configs)
                (λ _, eq_refl) (λ _ _ _, eq_refl) (λ _ _ _, eq_refl)
                0 None _ _ _ Hfarm) as K3.
  pose proof (prepare_keeps
                (λ e, match e with Analyze d => Some d | _ => None end)
                w config_template seed benchmark eq_refl _ _ _ Hprep) as K1.
  pose proof (plan_keeps
                (λ e, match e with Analyze d => Some d | _ => None end)
                w config runs n_cores_task (λ _, eq_refl) eq_refl eq_refl
                _ _ _ Hplan) as K2.
  rewrite K3. rewrite <- K1, <- K2.
  unfold dispatch_start, running.
  destruct (1 <? n); simpl; rewrite !omap_app; simpl; by rewrite !app_nil_r.
Qed.

Lemma analysis_once_at_the_end_witness :
  Sample.run4.1 = Ok tt ∧ analyses (log Sample.run4.2) = ["./log/run"].
Proof.
  assert (Sample.run4.1 = Ok tt) as Hok by (vm_compute; reflexivity).
  split; [exact Hok|].
  unfold Sample.run4 in *.
  destruct (main _ _ _ _ _ _ _) as [r s'] eqn:Hrun. simpl in Hok. subst r.
  destruct (analysis_once_at_the_end _ _ _ _ _ _ _ _ Hrun)
    as (config & s1 & n & config' & configs & s2 & c & before
        & _ & _ & _ & _ & Han).
  exact Han.
Defined.

(** X15. A run creates at most one pool, and only when the resolved worker
    count exceeds one; its size is that count, which never exceeds
    [runs]. In particular no pool is created for a single replicate.
    Precisely: when the stages before the dispatch have passed, the worker
    count the plan carries is the one [resolve_cores] has settled on, it is
    at most [runs], and the run, however it ends, has created one pool of
    that size when the count exceeds one and no pool otherwise; a run that
    stops in an earlier stage has created no pool. *)
Theorem at_most_one_pool (w : World) (config_template : string)
  (runs n_cores_task : Z) (seed : option Z) (benchmark : option string)
  (s s' : Sys) (r : outcome unit) :
  main w config_template runs n_cores_task seed benchmark s = (r, s') →
  (∀ config s1 n config' configs s2,
     prepare w config_template seed benchmark s = (Ok config, s1) →
     plan w config runs n_cores_task s1 = (Ok (n, config', configs), s2) →
     (∃ s0, resolve_cores w runs n_cores_task s1 = (Ok n, s0)) ∧
     n ≤ runs ∧
     pools (log s') = pools (log s) ++ (if 1 <? n then [n] else [])) ∧
  (is_ok (prepare w config_template seed benchmark s).1 = false →
   pools (log s') = pools (log s)) ∧
  (∀ config s1,
     prepare w config_template seed benchmark s = (Ok config, s1) →
     is_ok (plan w config runs n_cores_task s1).1 = false →
     pools (log s') = pools (log s)).
Proof.
  intros Hmain. rewrite main_stages in Hmain. split; [|split].
  - intros config s1 n config' configs s2 Hprep Hplan.
    pose proof Hplan as (s0 & c1 & s0' & Hres & _)%plan_inv.
    split; [by exists s0|].
    split; [by apply resolve_cores_le in Hres as [? _]|].
    rewrite Hprep, Hplan, farm_out_taken in Hmain.
    destruct (prepare_quiet _ _ _ _ _ _ _ Hprep) as (_ & _ & _ & P1).
    destruct (plan_quiet _ _ _ _ _ _ _ Hplan) as (_ & _ & _ & P2).
    destruct (running_quiet runs s2) as (_ & _ & _ & P3).
    assert (pools (log s')
            = pools (log (dispatch_start n (running runs s2)))) as Hloop.
    { destruct (consume _ _ _ _ _ _) as [[sp|e|] s3] eqn:Hc;
        pose proof (Keeps_consume
                      (λ e, match e with Pool n => Some n | _ => None end)
                      w runs _ (λ _, eq_refl) (λ _ _ _, eq_refl)
                      (λ _ _ _, eq_refl) 0 None _ _ _ Hc) as K.
      - destruct (_ && _).
        + injection Hmain as <- <-. exact K.
        + destruct (evaluate_logs_quiet _ _ _ _ _ _ Hmain) as (_ & _ & _ & P5).
          rewrite P5. exact K.
      - injection Hmain as <- <-. exact K.
      - injection Hmain as <- <-. exact K. }
    assert (pools (log (running runs s2)) = pools (log s)) as Hbase
      by congruence.
    rewrite Hloop. unfold dispatch_start.
    destruct (1 <? n).
    + change (pools (log (running runs s2) ++ [Pool n]) = pools (log s) ++ [n]).
      by rewrite pools_app, Hbase.
    + by rewrite app_nil_r.
  - intros Hfail.
    destruct (prepare _ _ _ _ s) as [[config|e|] s1] eqn:Hprep;
      [discriminate Hfail| |]; injection Hmain as <- <-;
      by destruct (prepare_quiet _ _ _ _ _ _ _ Hprep) as (_ & _ & _ & ?).
  - intros config s1 Hprep Hfail. rewrite Hprep in Hmain.
    destruct (prepare_quiet _ _ _ _ _ _ _ Hprep) as (_ & _ & _ & P1).
    destruct (plan _ _ _ _ s1) as [[[[n config'] configs]|e|] s2] eqn:Hplan;
      [discriminate Hfail| |]; injection Hmain as <- <-;
      destruct (plan_quiet _ _ _ _ _ _ _ Hplan) as (_ & _ & _ & ?);
      congruence.
Qed.

Lemma at_most_one_pool_witness :
  pools (log Sample.run4.2) = [2] ∧
  pools (log Sample.taskless3.2) = [] ∧
  pools (log Sample.seedless3.2) = [].
Proof.
  assert (Sample.prepared4 = (Ok Sample.prepared4_config, Sample.prepared4.2))
    as Hprep by reflexivity.
  assert (Sample.planned4
          = (Ok (2, Sample.planned4_config, Sample.planned4_configs),
             Sample.planned4.2)) as Hplan by reflexivity.
  assert (Sample.seedless_prepared
          = (Ok Sample.seedless_config, Sample.seedless_prepared.2))
    as Hprep' by reflexivity.
  split; [|split].
  - unfold Sample.run4.
    destruct (main _ _ _ _ _ _ _) as [r s'] eqn:Hrun.
    destruct (at_most_one_pool _ _ _ _ _ _ _ _ _ Hrun) as (Hpool & _).
    destruct (Hpool _ _ _ _ _ _ Hprep Hplan) as (_ & _ & Hp).
    simpl. rewrite Hp. reflexivity.
  - unfold Sample.taskless3.
    destruct (main _ _ _ _ _ _ _) as [r s'] eqn:Hrun.
    destruct (at_most_one_pool _ _ _ _ _ _ _ _ _ Hrun) as (_ & Hnone & _).
    simpl. apply Hnone. reflexivity.
  - unfold Sample.seedless3.
    destruct (main _ _ _ _ _ _ _) as [r s'] eqn:Hrun.
    destruct (at_most_one_pool _ _ _ _ _ _ _ _ _ Hrun) as (_ & _ & Hnone).
    simpl. apply (Hnone _ _ Hprep'). reflexivity.
Defined.

(** X16. The task type is read before anything else is looked at (line
    55): a configuration without a "task" section, or without
    [task.task_type], makes the run raise [KeyError] at once, with or
    without [--b], before anything is printed or written. *)
Theorem task_type_required (w : World) (config_template : string)
  (runs n_cores_task : Z) (seed : option Z) (benchmark : option string)
  (s : Sys) (config : Config) :
  load_config w (if String.eqb config_template "" then None
                 else Some config_template) = Ok config →
  (config !! "task" = None →
   main w config_template runs n_cores_task seed benchmark s
   = (Raise (KeyError "task"), s)) ∧
  (∀ task, config !! "task" = Some task → task !! "task_type" = None →
     main w config_template runs n_cores_task seed benchmark s
     = (Raise (KeyError "task_type"), s)).
Proof.
  intros Hload.
  assert (∀ e, get2 config "task" "task_type" = Raise e →
               main w config_template runs n_cores_task seed benchmark s
               = (Raise e, s)) as Hmain.
  { intros e He. unfold main. erewrite bind_raise; [reflexivity|].
    unfold prepare. erewrite bind_run; [|unfold lift; by rewrite Hload].
    erewrite bind_raise; [reflexivity|].
    unfold lift, overwrite_benchmark. by rewrite He. }
  split.
  - intros Hnone. apply Hmain. unfold get2, Py.getitem. by rewrite Hnone.
  - intros task Htask Hnone. apply Hmain. unfold get2, Py.getitem.
    rewrite Htask. simpl. by rewrite Hnone.
Qed.

Lemma task_type_required_witness :
  main Sample.taskless_world "" 3 2 None None Sample.start
  = (Raise (KeyError "task"), Sample.start).
Proof.
  destruct (task_type_required Sample.taskless_world "" 3 2 None None
              Sample.start (delete "task" (Sample.config "regression" (VInt 0))))
    as [Hnone _]; [reflexivity|].
  apply Hnone. reflexivity.
Defined.

(** X17. The settings [training.verbose] and [training.n_cores_batch] are
    read whatever the worker count is (lines 86 and 89): a configuration
    lacking [training.verbose], or having it, whatever its value, and
    lacking [training.n_cores_batch], makes the corrections raise that
    [KeyError], also for a serial run, before the seed plan is built,
    without a file written or a replicate called. *)
Theorem training_keys_required (w : World) (config : Config)
  (runs n_cores_task : Z) (s : Sys) :
  (∀ e, get2 config "training" "verbose" = Raise e →
        ∃ s', plan w config runs n_cores_task s = (Raise e, s') ∧
              files s' = files s ∧ calls (log s') = calls (log s)) ∧
  (∀ e verbose,
     get2 config "training" "verbose" = Ok verbose →
     get2 config "training" "n_cores_batch" = Raise e →
     ∃ s', plan w config runs n_cores_task s = (Raise e, s') ∧
           files s' = files s ∧ calls (log s') = calls (log s)).
Proof.
  assert (∃ n s1, resolve_cores w runs n_cores_task s = (Ok n, s1) ∧
                  files s1 = files s ∧ calls (log s1) = calls (log s))
    as (n & s1 & Hres & Hf & Hc).
  { unfold resolve_cores, clamp_cores.
    destruct (runs <? all_cores w n_cores_task).
    - eexists _, _. split; [reflexivity|]. simpl. split; [done|].
      rewrite calls_app. simpl. by rewrite app_nil_r.
    - eexists _, _. split; [reflexivity|]. done. }
  split.
  - intros e He. exists s1. split; [|done].
    unfold plan. erewrite bind_raise; [reflexivity|].
    unfold corrections. rewrite (bind_run _ _ _ _ _ Hres).
    erewrite bind_raise; [reflexivity|].
    unfold fix_verbose. erewrite bind_raise; [reflexivity|].
    unfold lift. by rewrite He.
  - intros e verbose Hv He.
    assert (∃ config1 s2,
              fix_verbose config n s1 = (Ok config1, s2) ∧
              get2 config1 "training" "n_cores_batch" = Raise e ∧
              files s2 = files s1 ∧ calls (log s2) = calls (log s1))
      as (config1 & s2 & Hfix & He1 & Hf2 & Hc2).
    { unfold fix_verbose. rewrite (bind_run _ _ s1 s1 verbose)
        by (unfold lift; by rewrite Hv).
      destruct (Py.truthy verbose && (1 <? n)); [|by exists config, s1].
      destruct (get2_inv _ _ _ _ Hv) as (d & Hd & _).
      exists (<["training" := <["verbose" := VBool false]> d]> config),
             {| files := files s1; log := log s1 ++ [WarnVerbose] |}.
      assert (set2 config "training" "verbose" (VBool false)
              = Ok (<["training" := <["verbose" := VBool false]> d]> config))
        as Hset by (unfold set2, Py.getitem; by rewrite Hd).
      split; [|split; [|split]].
      - unfold mbind, M_bind, emit, lift. by rewrite Hset.
      - rewrite (get2_set2_ne config _ "training" "verbose"
                   "training" "n_cores_batch" (VBool false) Hset) by done.
        exact He.
      - done.
      - simpl. rewrite calls_app. simpl. by rewrite app_nil_r. }
    exists s2. split; [|split; congruence].
    unfold plan. erewrite bind_raise; [reflexivity|].
    unfold corrections. rewrite (bind_run _ _ _ _ _ Hres).
    rewrite (bind_run _ _ _ _ _ Hfix).
    erewrite bind_raise; [reflexivity|].
    unfold fix_batch. erewrite bind_raise; [reflexivity|].
    unfold lift. by rewrite He1.
Qed.

Lemma training_keys_required_witness :
  (∃ s',
     plan (Sample.world "regression" (VInt 0) true [])
       (delete "training" (Sample.config "regression" (VInt 0))) 1 1
       Sample.start
     = (Raise (KeyError "training"), s')) ∧
  get2 Sample.batchless "training" "verbose" = Ok (VBool true) ∧
  (∃ s',
     plan (Sample.world "regression" (VInt 0) true []) Sample.batchless 4 2
       Sample.start
     = (Raise (KeyError "n_cores_batch"), s')).
Proof.
  split; [|split; [reflexivity|]].
  - destruct (training_keys_required (Sample.world "regression" (VInt 0) true [])
                (delete "training" (Sample.config "regression" (VInt 0)))
                1 1 Sample.start) as [Hverbose _].
    destruct (Hverbose (KeyError "training")) as (s' & Hplan & _); [reflexivity|].
    by exists s'.
  - destruct (training_keys_required (Sample.world "regression" (VInt 0) true [])
                Sample.batchless 4 2 Sample.start) as [_ Hbatch].
    destruct (Hbatch (KeyError "n_cores_batch") (VBool true))
      as (s' & Hplan & _); [reflexivity | reflexivity |].
    by exists s'.
Defined.
